(** * connectlambda: API Gateway proxy envelopes <-> net/http handlers

    A shallow embedding of [cmd/server/connectlambda.go].  Go strings are
    byte strings and are modelled by [string]; [[]byte] is [list byte];
    Go maps are [gmap]s ([None] standing for the nil map where the code
    can observe the difference); [int] is [Z].  The functions of the Go
    standard library that the file calls are modelled in modules named
    after their packages.  The context passed to the entry point is
    never nil and plays no other part; a handler that panics is outside
    the model. *)

From Stdlib Require Import ZArith String Ascii List Lia.
From Stdlib Require Import Strings.Byte.
From stdpp Require Import gmap strings list fin_maps.

Local Open Scope Z_scope.
Local Open Scope string_scope.
Local Open Scope list_scope.

(** ** Bytes and strings *)

Definition Z_of_byte (b : byte) : Z := Z.of_N (Byte.to_N b).

(** Go's [byte(v)] conversion of an unsigned value: the low eight bits. *)
Definition byte_of_Z (z : Z) : byte :=
  match Byte.of_N (Z.to_N (Z.land z 255)) with
  | Some b => b
  | None => x00
  end.

(** [[]byte(s)] and [string(bs)]. *)
Definition bytes_of_string (s : string) : list byte := list_byte_of_string s.
Definition string_of_bytes (bs : list byte) : string := string_of_list_byte bs.

(** ** encoding/base64, [StdEncoding] *)

Module base64.

Definition encodeStd : string :=
  "ABCDEFGHIJKLMNOPQRSTUVWXYZabcdefghijklmnopqrstuvwxyz0123456789+/".

Definition padChar : ascii := "="%char.

(** [enc.encode[i]] for a six-bit index. *)
Definition encode (i : Z) : ascii :=
  nth (Z.to_nat i) (list_ascii_of_string encodeStd) "A"%char.

Fixpoint index_of (c : ascii) (l : list ascii) (i : Z) : option Z :=
  match l with
  | [] => None
  | x :: l' => if Ascii.eqb x c then Some i else index_of c l' (i + 1)
  end.

(** [enc.decodeMap[c]]; the code's sentinel 0xff is [None] here. *)
Definition decodeMap (c : ascii) : option Z :=
  index_of c (list_ascii_of_string encodeStd) 0.

(** One full group of [Encode]: three bytes give four characters. *)
Definition encode3 (b0 b1 b2 : byte) : list ascii :=
  let val := Z.lor (Z.lor (Z.shiftl (Z_of_byte b0) 16)
                          (Z.shiftl (Z_of_byte b1) 8))
                   (Z_of_byte b2) in
  [ encode (Z.land (Z.shiftr val 18) 63);
    encode (Z.land (Z.shiftr val 12) 63);
    encode (Z.land (Z.shiftr val 6) 63);
    encode (Z.land val 63) ].

Fixpoint Encode (src : list byte) : list ascii :=
  match src with
  | [] => []
  | [b0] =>
      let val := Z.shiftl (Z_of_byte b0) 16 in
      [ encode (Z.land (Z.shiftr val 18) 63);
        encode (Z.land (Z.shiftr val 12) 63);
        padChar; padChar ]
  | [b0; b1] =>
      let val := Z.lor (Z.shiftl (Z_of_byte b0) 16)
                       (Z.shiftl (Z_of_byte b1) 8) in
      [ encode (Z.land (Z.shiftr val 18) 63);
        encode (Z.land (Z.shiftr val 12) 63);
        encode (Z.land (Z.shiftr val 6) 63);
        padChar ]
  | b0 :: b1 :: b2 :: rest => encode3 b0 b1 b2 ++ Encode rest
  end.

Definition EncodeToString (src : list byte) : string :=
  string_of_list_ascii (Encode src).

(** The end of [decodeQuantum]: four six-bit values are packed into
    [val] and the first [dlen - 1] of its three bytes are output. *)
Definition quantum (dlen : nat) (d0 d1 d2 d3 : Z) : list byte :=
  let val := Z.lor (Z.lor (Z.lor (Z.shiftl d0 18) (Z.shiftl d1 12))
                          (Z.shiftl d2 6)) d3 in
  take (dlen - 1)%nat
    [ byte_of_Z (Z.shiftr val 16); byte_of_Z (Z.shiftr val 8);
      byte_of_Z val ].

Definition isNewline (c : ascii) : bool :=
  Ascii.eqb c "010"%char || Ascii.eqb c "013"%char.

Definition isPad (c : ascii) : bool := Ascii.eqb c padChar.

Definition atEnd (cs : list ascii) : bool :=
  match cs with [] => true | _ => false end.

(** [Decode] on input from which '\r' and '\n' have been dropped (the
    decoder skips them wherever they stand).  Groups of four alphabet
    characters give three bytes; padding is mandatory, may only close
    the last group, and nothing may follow it.  [None] is the
    [CorruptInputError]. *)
Fixpoint decodeQuanta (cs : list ascii) : option (list byte) :=
  match cs with
  | [] => Some []
  | c0 :: c1 :: c2 :: c3 :: rest =>
      match decodeMap c0, decodeMap c1 with
      | Some d0, Some d1 =>
          match decodeMap c2 with
          | Some d2 =>
              match decodeMap c3 with
              | Some d3 =>
                  match decodeQuanta rest with
                  | Some bs => Some (quantum 4 d0 d1 d2 d3 ++ bs)
                  | None => None
                  end
              | None =>
                  if isPad c3 && atEnd rest
                  then Some (quantum 3 d0 d1 d2 0) else None
              end
          | None =>
              if isPad c2 && isPad c3 && atEnd rest
              then Some (quantum 2 d0 d1 0 0) else None
          end
      | _, _ => None
      end
  | _ => None
  end.

Definition DecodeString (s : string) : option (list byte) :=
  decodeQuanta
    (List.filter (fun c => negb (isNewline c)) (list_ascii_of_string s)).

End base64.

(** ** Errors *)

(** A Go [error] is kept as its message, [err.Error()]. *)
Definition error : Type := string.

Inductive result (A : Type) : Type :=
| Ok (a : A)
| Err (e : error).
Arguments Ok {A} a.
Arguments Err {A} e.

Definition dquote : string := String "034"%char "".

(** ** What is left abstract

    The parts of the Go runtime and standard library that the file relies
    on but whose behaviour is not fixed here: values of type [any], URL
    parsing, [%q] quoting, the Unicode-aware [strings] functions, and the
    order in which [range] visits a map (every entry once, in an order
    the language does not specify). *)

Class GoLib : Type := {
  any : Type;
  URL : Type;
  url_Parse : string -> result URL;
  strconv_Quote : string -> string;
  strings_TrimSpace : string -> string;
  strings_ToLower : string -> string;
  range : forall {V : Type}, gmap string V -> list (string * V);
  TrimSpace_empty : strings_TrimSpace "" = "";
  ToLower_empty : strings_ToLower "" = "";
  range_Permutation :
    forall (V : Type) (m : gmap string V), range m ≡ₚ map_to_list m
}.

(** ** net/textproto *)

Module textproto.

Definition isLower (c : ascii) : bool :=
  ((97 <=? N_of_ascii c) && (N_of_ascii c <=? 122))%N.
Definition isUpper (c : ascii) : bool :=
  ((65 <=? N_of_ascii c) && (N_of_ascii c <=? 90))%N.
Definition isDigit (c : ascii) : bool :=
  ((48 <=? N_of_ascii c) && (N_of_ascii c <=? 57))%N.

(** The bitmap of [validHeaderFieldByte]: the token characters. *)
Definition validHeaderFieldByte (c : ascii) : bool :=
  isDigit c || isLower c || isUpper c
  || existsb (Ascii.eqb c) (list_ascii_of_string "!#$%&'*+-.^_`|~").

Definition toLower : N := 32%N.

(** The loop of [canonicalMIMEHeaderKey]: upper case at the start and
    after each dash, lower case elsewhere. *)
Fixpoint canonicalize (upper : bool) (a : string) : string :=
  match a with
  | EmptyString => EmptyString
  | String c a' =>
      let c' :=
        if upper && isLower c then ascii_of_N (N_of_ascii c - toLower)
        else if negb upper && isUpper c
             then ascii_of_N (N_of_ascii c + toLower)
             else c in
      String c' (canonicalize (Ascii.eqb c' "-"%char) a')
  end.

(** A key holding a space or any other byte that is not a token
    character is returned as it is. *)
Definition CanonicalMIMEHeaderKey (s : string) : string :=
  if forallb validHeaderFieldByte (list_ascii_of_string s)
  then canonicalize true s
  else s.

End textproto.

(** ** net/http *)

Module http.

Abbreviation Header := (gmap string (list string)).

Definition StatusOK : Z := 200.
Definition StatusBadRequest : Z := 400.
Definition StatusInternalServerError : Z := 500.

(** [h.Add(key, value)]: append under the canonical key. *)
Definition Header_Add (key value : string) (h : Header) : Header :=
  let k := textproto.CanonicalMIMEHeaderKey key in
  <[k := default [] (h !! k) ++ [value]]> h.

(** [h.Get(key)], also on the nil map ([None]): the first value under
    the canonical key, or the empty string. *)
Definition Header_Get (h : option Header) (key : string) : string :=
  match h with
  | None => ""
  | Some m =>
      match m !! textproto.CanonicalMIMEHeaderKey key with
      | Some (v :: _) => v
      | _ => ""
      end
  end.

(** [h.Values(key)]: all the values under the canonical key. *)
Definition Header_Values (h : Header) (key : string) : list string :=
  default [] (h !! textproto.CanonicalMIMEHeaderKey key).

(** The method is a non-empty token. *)
Definition validMethod (method : string) : bool :=
  negb (String.eqb method "")
  && forallb textproto.validHeaderFieldByte (list_ascii_of_string method).

Record Request `{GoLib} : Type := mkRequest {
  Method : string;
  Url : URL;
  Header_ : Header;
  Body : list byte;
  ContentLength : Z
}.

(** [NewRequestWithContext(ctx, method, url, bytes.NewReader(bs))] for
    a non-nil [ctx]: the method defaults to GET and must be a token,
    the URL must parse, the header map starts empty. *)
Definition NewRequestWithContext `{GoLib}
    (method url : string) (bs : list byte) : result Request :=
  let method := if String.eqb method "" then "GET" else method in
  if negb (validMethod method)
  then Err ("net/http: invalid method " +:+ strconv_Quote method)
  else
    match url_Parse url with
    | Err e => Err e
    | Ok u =>
        Ok {| Method := method; Url := u; Header_ := ∅; Body := bs;
              ContentLength := Z.of_nat (length bs) |}
    end.

Definition set_Header `{GoLib} (h : Header) (r : Request) : Request :=
  {| Method := Method r; Url := Url r; Header_ := h; Body := Body r;
     ContentLength := ContentLength r |}.

End http.

(** ** os: the process environment *)

Module os.

Abbreviation Environ := (gmap string string).

Definition Getenv (env : Environ) (key : string) : string :=
  default "" (env !! key).

Definition LookupEnv (env : Environ) (key : string) : option string :=
  env !! key.

End os.

(** ** bytes.Buffer *)

Module Buffer.

(** [b.Write(p)] appends and never returns an error. *)
Definition Write (p : list byte) (b : list byte)
  : (Z * option error) * list byte :=
  ((Z.of_nat (length p), None), b ++ p).

End Buffer.

(** ** Startup configuration *)

Inductive Mode : Type :=
| HttpMode
| LambdaMode.

Module Config.
Record t : Type := mk {
  Mode : Mode;
  HttpAddr : string
}.
End Config.

(** The three arms of the [switch mode] of [ConfigFromEnv]. *)
Definition switch_mode (mode : string) : option Mode :=
  if String.eqb mode "lambda" then Some LambdaMode
  else if String.eqb mode "" || String.eqb mode "http" then Some HttpMode
  else None.

Definition ConfigFromEnv `{GoLib} (env : os.Environ)
  : Config.t * option error :=
  let config := Config.mk HttpMode "" in
  let mode :=
    strings_ToLower
      (strings_TrimSpace (os.Getenv env "CONNECT_SERVER_MODE")) in
  match switch_mode mode with
  | None =>
      (Config.mk HttpMode "",
       Some ("incorrect CONNECT_SERVER_MODE environment value "
             +:+ strconv_Quote mode +:+ ", expected "
             +:+ dquote +:+ "lambda" +:+ dquote +:+ " or "
             +:+ dquote +:+ "http" +:+ dquote))
  | Some m =>
      let config := Config.mk m (Config.HttpAddr config) in
      match Config.Mode config with
      | HttpMode =>
          match os.LookupEnv env "CONNECT_SERVER_ADDR" with
          | None =>
              (Config.mk HttpMode "",
               Some "missing CONNECT_SERVER_ADDR environment value")
          | Some addr =>
              (Config.mk (Config.Mode config) (strings_TrimSpace addr), None)
          end
      | LambdaMode => (config, None)
      end
  end.

(** ** The proxy envelopes *)

Module ProxyRequest.
Record t `{GoLib} : Type := mk {
  Resource : string;
  Path : string;
  HttpMethod : string;
  Headers : gmap string string;
  MultiValueHeaders : gmap string (list string);
  QueryStringParameters : gmap string string;
  MultiValueQueryStringParameters : gmap string (list string);
  PathParameters : any;
  StageVariables : any;
  Body : string;
  Base64 : bool;
  RequestContext : gmap string any
}.
End ProxyRequest.

Module ProxyResponse.
Record t : Type := mk {
  Base64 : bool;
  Status : Z;
  Header : option http.Header;
  Body : string
}.
End ProxyResponse.

Definition errorResponse (status : Z) (msg : string) : ProxyResponse.t :=
  {| ProxyResponse.Base64 := false;
     ProxyResponse.Status := status;
     ProxyResponse.Header := Some {[ "Content-Type" := ["text/plain"] ]};
     ProxyResponse.Body := msg |}.

(** ** The response capture buffer *)

Module ResponseBuffer.

Record t : Type := mk {
  statusCode : Z;
  header : option http.Header;
  buf : list byte;
  wroteHeader : bool
}.

(** [&ResponseBuffer{}] *)
Definition zero : t := mk 0 None [] false.

(** [Header()] allocates the map on first use and returns the map the
    buffer holds. *)
Definition Header (o : t) : http.Header * t :=
  match header o with
  | None => (∅, mk (statusCode o) (Some ∅) (buf o) (wroteHeader o))
  | Some m => (m, o)
  end.

Definition WriteHeader (statusCode' : Z) (o : t) : t :=
  if wroteHeader o then o
  else mk statusCode' (header o) (buf o) true.

Definition Write (bytes : list byte) (o : t) : (Z * option error) * t :=
  let o := if negb (wroteHeader o) then WriteHeader http.StatusOK o else o in
  let o :=
    if Z.eqb (statusCode o) 0
    then mk http.StatusOK (header o) (buf o) (wroteHeader o)
    else o in
  match Buffer.Write bytes (buf o) with
  | ((_, Some err), b) =>
      ((0, Some err), mk (statusCode o) (header o) b (wroteHeader o))
  | ((_, None), b) =>
      ((Z.of_nat (length bytes), None),
       mk (statusCode o) (header o) b (wroteHeader o))
  end.

Definition ToLambdaProxyResponse (o : t) : ProxyResponse.t :=
  let useBase64 :=
    negb (String.eqb (http.Header_Get (header o) "Content-Type")
                     "application/json") in
  let body :=
    if useBase64 then base64.EncodeToString (buf o)
    else string_of_bytes (buf o) in
  {| ProxyResponse.Base64 := useBase64;
     ProxyResponse.Status := statusCode o;
     ProxyResponse.Header := header o;
     ProxyResponse.Body := body |}.

End ResponseBuffer.

(** ** The wrapped handler

    All a handler can do to the [http.ResponseWriter] it is given is call
    its three methods.  The map that [Header()] returns is the buffer's
    own, so whatever the handler does to it is an update [f] of the
    buffer's header. *)

Inductive call : Type :=
| CallHeader (f : http.Header -> http.Header)
| CallWriteHeader (statusCode : Z)
| CallWrite (bytes : list byte).

Definition perform (o : ResponseBuffer.t) (c : call) : ResponseBuffer.t :=
  match c with
  | CallHeader f =>
      let '(m, o') := ResponseBuffer.Header o in
      ResponseBuffer.mk (ResponseBuffer.statusCode o') (Some (f m))
                        (ResponseBuffer.buf o') (ResponseBuffer.wroteHeader o')
  | CallWriteHeader statusCode => ResponseBuffer.WriteHeader statusCode o
  | CallWrite bytes => snd (ResponseBuffer.Write bytes o)
  end.

(** [ServeHTTP(w, req)] of a handler that makes the calls [cs]. *)
Definition ServeHTTP (cs : list call) (w : ResponseBuffer.t)
  : ResponseBuffer.t :=
  foldl perform w cs.

Record handler `{GoLib} : Type := mkHandler {
  mux : http.Request -> list call
}.

(** ** The Lambda entry point *)

(** What an invocation does besides returning: messages passed to the
    injected logger and requests handed to the wrapped handler. *)
Inductive event `{GoLib} : Type :=
| Log (msg : string)
| Serve (req : http.Request).

Record Outcome `{GoLib} : Type := mkOutcome {
  response : ProxyResponse.t;
  err : option error;
  events : list event
}.

(** The body of the request: the text of the envelope or what it decodes
    to; [None] when decoding fails. *)
Definition requestBody `{GoLib} (preq : ProxyRequest.t)
  : option (list byte) :=
  if ProxyRequest.Base64 preq
  then base64.DecodeString (ProxyRequest.Body preq)
  else Some (bytes_of_string (ProxyRequest.Body preq)).

(** The two header loops. *)
Definition copyHeaders `{GoLib} (preq : ProxyRequest.t) (h : http.Header)
  : http.Header :=
  let h :=
    foldl (fun h kv => http.Header_Add (fst kv) (snd kv) h) h
          (range (ProxyRequest.Headers preq)) in
  foldl (fun h ks =>
           foldl (fun h v => http.Header_Add (fst ks) v h) h (snd ks))
        h (range (ProxyRequest.MultiValueHeaders preq)).

Definition handleLambdaReq `{GoLib} (h : handler) (preq : ProxyRequest.t)
  : Outcome :=
  let url := ProxyRequest.Path preq in
  match requestBody preq with
  | None =>
      {| response :=
           errorResponse http.StatusBadRequest "could not decode body";
         err := None;
         events := [Log "could not decode body as base64"] |}
  | Some bs =>
      match http.NewRequestWithContext
              (ProxyRequest.HttpMethod preq) url bs with
      | Err e =>
          {| response :=
               errorResponse http.StatusBadRequest
                 "could not create request, check url and http method";
             err := None;
             events := [Log ("could not create request : " +:+ e)] |}
      | Ok req =>
          let req :=
            http.set_Header (copyHeaders preq (http.Header_ req)) req in
          let buf := ServeHTTP (mux h req) ResponseBuffer.zero in
          if negb (ResponseBuffer.wroteHeader buf)
          then
            {| response :=
                 errorResponse http.StatusInternalServerError
                   "internal server error";
               err := None;
               events :=
                 [Serve req;
                  Log "HTTP handler returned without writing a header or body"]
            |}
          else
            {| response := ResponseBuffer.ToLambdaProxyResponse buf;
               err := None;
               events := [Serve req] |}
      end
  end.

(** ** An instance of the abstract parts

    The library on ASCII input, with [range] visiting the entries in key
    order; the examples below are run on it. *)

Module ascii_lib.

Definition isSpace (c : ascii) : bool :=
  existsb (Ascii.eqb c)
    [ "009"%char; "010"%char; "011"%char; "012"%char; "013"%char; " "%char ].

Fixpoint trimLeft (s : string) : string :=
  match s with
  | EmptyString => EmptyString
  | String c s' => if isSpace c then trimLeft s' else s
  end.

Definition TrimSpace (s : string) : string :=
  String.rev (trimLeft (String.rev (trimLeft s))).

Definition ToLower (s : string) : string :=
  string_of_list_ascii
    (List.map
       (fun c => if textproto.isUpper c
                 then ascii_of_N (N_of_ascii c + 32) else c)
       (list_ascii_of_string s)).

Definition Quote (s : string) : string := dquote +:+ s +:+ dquote.

Definition isCTL (c : ascii) : bool :=
  ((N_of_ascii c <? 32) || (N_of_ascii c =? 127))%N.

Definition Parse (url : string) : result string :=
  if existsb isCTL (list_ascii_of_string url)
  then Err ("parse " +:+ Quote url
            +:+ ": net/url: invalid control character in URL")
  else Ok url.

Definition lib : GoLib :=
  {| any := unit;
     URL := string;
     url_Parse := Parse;
     strconv_Quote := Quote;
     strings_TrimSpace := TrimSpace;
     strings_ToLower := ToLower;
     range := fun V m => map_to_list m;
     TrimSpace_empty := eq_refl;
     ToLower_empty := eq_refl;
     range_Permutation := fun V m => reflexivity (map_to_list m) |}.

(** An envelope with the fields the entry point reads. *)
Definition envelope (method path : string)
    (headers : gmap string string) (multi : gmap string (list string))
    (body : string) (isBase64 : bool) : @ProxyRequest.t lib :=
  @ProxyRequest.mk lib "" path method headers multi ∅ ∅ tt tt body
    isBase64 ∅.

(** The request built from such an envelope. *)
Definition request (method path : string) (header : http.Header)
    (body : string) : @http.Request lib :=
  @http.mkRequest lib method path header (bytes_of_string body)
    (Z.of_nat (length (bytes_of_string body))).

(** Handlers used in the examples. *)
Definition silent : @handler lib := @mkHandler lib (fun _ => []).

Definition says (contentType body : string) : @handler lib :=
  @mkHandler lib (fun _ =>
    [ CallHeader (http.Header_Add "Content-Type" contentType);
      CallWrite (bytes_of_string body) ]).

End ascii_lib.

(** ** Notions used to state the properties *)

(** The messages an invocation passed to the logger, in order. *)
Definition logged `{GoLib} (es : list event) : list string :=
  omap (fun e => match e with Log msg => Some msg | Serve _ => None end) es.

(** The requests an invocation handed to the wrapped handler. *)
Definition served `{GoLib} (es : list event) : list http.Request :=
  omap (fun e => match e with Serve req => Some req | Log _ => None end) es.

Definition isWriteHeader (c : call) : bool :=
  match c with
  | CallWriteHeader _ => true
  | _ => false
  end.

(** The committed value of a header: the first value the buffer holds
    under [key], if it holds one. *)
Definition committed (key : string) (o : ResponseBuffer.t) : option string :=
  match ResponseBuffer.header o with
  | None => None
  | Some m =>
      match m !! key with
      | Some (v :: _) => Some v
      | _ => None
      end
  end.

(** The agreement between the base64 flag of an envelope and its body,
    for a response whose raw bytes are [raw]. *)
Definition agreement (r : ProxyResponse.t) (raw : list byte) : Prop :=
  if ProxyResponse.Base64 r
  then ProxyResponse.Body r = base64.EncodeToString raw
  else ProxyResponse.Body r = string_of_bytes raw.

(** What the receiver of an envelope reads back from its body. *)
Definition received (r : ProxyResponse.t) : option (list byte) :=
  if ProxyResponse.Base64 r
  then base64.DecodeString (ProxyResponse.Body r)
  else Some (bytes_of_string (ProxyResponse.Body r)).

(** A method the request constructor accepts: empty (it stands for GET)
    or a token. *)
Definition acceptable (method : string) : Prop :=
  method = "" \/ http.validMethod method = true.

(** The four ways an invocation can go. *)
Inductive run `{GoLib} (h : handler) (preq : ProxyRequest.t)
  : Outcome -> Prop :=
| run_bad_body :
    requestBody preq = None ->
    run h preq
      {| response := errorResponse 400 "could not decode body";
         err := None;
         events := [Log "could not decode body as base64"] |}
| run_bad_request bs e :
    requestBody preq = Some bs ->
    http.NewRequestWithContext (ProxyRequest.HttpMethod preq)
      (ProxyRequest.Path preq) bs = Err e ->
    run h preq
      {| response :=
           errorResponse 400
             "could not create request, check url and http method";
         err := None;
         events := [Log ("could not create request : " +:+ e)] |}
| run_silent bs req0 req :
    requestBody preq = Some bs ->
    http.NewRequestWithContext (ProxyRequest.HttpMethod preq)
      (ProxyRequest.Path preq) bs = Ok req0 ->
    req = http.set_Header (copyHeaders preq (http.Header_ req0)) req0 ->
    ResponseBuffer.wroteHeader (ServeHTTP (mux h req) ResponseBuffer.zero)
    = false ->
    run h preq
      {| response := errorResponse 500 "internal server error";
         err := None;
         events :=
           [Serve req;
            Log "HTTP handler returned without writing a header or body"] |}
| run_rendered bs req0 req :
    requestBody preq = Some bs ->
    http.NewRequestWithContext (ProxyRequest.HttpMethod preq)
      (ProxyRequest.Path preq) bs = Ok req0 ->
    req = http.set_Header (copyHeaders preq (http.Header_ req0)) req0 ->
    ResponseBuffer.wroteHeader (ServeHTTP (mux h req) ResponseBuffer.zero)
    = true ->
    run h preq
      {| response :=
           ResponseBuffer.ToLambdaProxyResponse
             (ServeHTTP (mux h req) ResponseBuffer.zero);
         err := None;
         events := [Serve req] |}.

(** A plain-text diagnostic envelope. *)
Definition plainText (r : ProxyResponse.t) (status : Z) (msg : string)
  : Prop :=
  ProxyResponse.Status r = status /\
  ProxyResponse.Base64 r = false /\
  ProxyResponse.Header r = Some {[ "Content-Type" := ["text/plain"] ]} /\
  ProxyResponse.Body r = msg.

(** ** Notions used to state the further properties *)

Definition isCallHeader (c : call) : bool :=
  match c with
  | CallHeader _ => true
  | _ => false
  end.

Definition isCallWrite (c : call) : bool :=
  match c with
  | CallWrite _ => true
  | _ => false
  end.

(** The bytes a sequence of calls passes to [Write], in order. *)
Definition written (cs : list call) : list byte :=
  concat (omap (fun c => match c with
                         | CallWrite bytes => Some bytes
                         | _ => None
                         end) cs).

(** Two buffers that differ in their header only. *)
Definition same_rest (o o' : ResponseBuffer.t) : Prop :=
  ResponseBuffer.statusCode o = ResponseBuffer.statusCode o' /\
  ResponseBuffer.buf o = ResponseBuffer.buf o' /\
  ResponseBuffer.wroteHeader o = ResponseBuffer.wroteHeader o'.

(** The mode selector as [ConfigFromEnv] reads it. *)
Definition selector `{GoLib} (env : os.Environ) : string :=
  strings_ToLower (strings_TrimSpace (os.Getenv env "CONNECT_SERVER_MODE")).

(** ** Start

    What [Start] hands to the Lambda runtime or to the HTTP server.  The
    logger it is given only becomes the logger of the handler, whose
    calls are the [Log] events of [handleLambdaReq]. *)
Inductive server `{GoLib} : Type :=
| LambdaStart (h : handler)
| ListenAndServe (addr : string) (mux : http.Request -> list call).

(** [Start(mux, errorLogger)] in the environment [env]; [listen addr] is
    the error with which [http.ListenAndServe] returns on [addr].
    [lambda.Start] is taken to return; the [default] arm of the switch
    has no counterpart, [Mode] having two values. *)
Definition Start `{GoLib} (listen : string -> option error)
    (env : os.Environ) (mux : http.Request -> list call)
  : list server * option error :=
  match ConfigFromEnv env with
  | (_, Some err) => ([], Some ("could not start handler : " +:+ err))
  | (config, None) =>
      match Config.Mode config with
      | LambdaMode => ([LambdaStart (@mkHandler _ mux)], None)
      | HttpMode =>
          ([ListenAndServe (Config.HttpAddr config) mux],
           match listen (Config.HttpAddr config) with
           | Some err => Some ("failed to start http server : " +:+ err)
           | None => None
           end)
      end
  end.

(** The keys under which a request header map may hold values, given
    the keys [ok] of the envelope: their canonical forms, each with at
    least one value. *)
Definition from_keys (ok : string -> Prop) (h : http.Header) : Prop :=
  forall K vs, h !! K = Some vs ->
    vs <> [] /\ exists k, textproto.CanonicalMIMEHeaderKey k = K /\ ok k.

(** For the examples: a handler that declares JSON, sets the status 201
    and writes twice,
    and an envelope that differs from [envelope] in fields that are not
    read. *)
Definition created : @handler ascii_lib.lib :=
  @mkHandler ascii_lib.lib (fun _ =>
    [ CallHeader (http.Header_Add "Content-Type" "application/json");
      CallWriteHeader 201;
      CallWrite (bytes_of_string "hel");
      CallWrite (bytes_of_string "lo") ]).


(** * Properties *)

(** ** base64: decoding undoes encoding *)

Lemma Z_of_byte_range (b : byte) : 0 <= Z_of_byte b < 256.
Proof.
  unfold Z_of_byte. pose proof (Byte.to_N_bounded b). lia.
Qed.

Lemma byte_of_Z_low (w : Z) (b : byte) :
  Z.land w 255 = Z_of_byte b -> byte_of_Z w = b.
Proof.
  intros E. unfold byte_of_Z. rewrite E. unfold Z_of_byte.
  rewrite N2Z.id, Byte.of_to_N. reflexivity.
Qed.

Lemma lor_disjoint (a b n : Z) :
  0 <= n -> a mod 2 ^ n = 0 -> 0 <= b < 2 ^ n -> Z.lor a b = a + b.
Proof.
  intros Hn Ha Hb.
  assert (L : Z.land a b = 0).
  { apply Z.bits_inj'. intros m Hm. rewrite Z.land_spec, Z.bits_0.
    destruct (Z.lt_ge_cases m n) as [Hlt | Hge].
    - rewrite <- (Z.mod_pow2_bits_low a n m Hlt), Ha, Z.bits_0. reflexivity.
    - rewrite <- (Z.mod_small b (2 ^ n) Hb).
      rewrite Z.mod_pow2_bits_high by lia. apply andb_false_r. }
  pose proof (Z.add_lor_land a b) as E. rewrite L in E. lia.
Qed.

Lemma mask6 (a : Z) : Z.land a 63 = a mod 64.
Proof. change 63 with (Z.ones 6). rewrite Z.land_ones by lia. reflexivity. Qed.

Lemma mask8 (a : Z) : Z.land a 255 = a mod 256.
Proof. change 255 with (Z.ones 8). rewrite Z.land_ones by lia. reflexivity. Qed.

Lemma pack3 (x y z : Z) :
  0 <= x < 256 -> 0 <= y < 256 -> 0 <= z < 256 ->
  Z.lor (Z.lor (Z.shiftl x 16) (Z.shiftl y 8)) z = x * 65536 + y * 256 + z.
Proof.
  intros Hx Hy Hz. rewrite !Z.shiftl_mul_pow2 by lia.
  change (2 ^ 16) with 65536. change (2 ^ 8) with 256.
  rewrite (lor_disjoint (x * 65536) (y * 256) 16); [ | lia | | lia ].
  - apply (lor_disjoint _ z 8); [ lia | | lia ].
    change (2 ^ 8) with 256. Z.div_mod_to_equations. lia.
  - change (2 ^ 16) with 65536. Z.div_mod_to_equations. lia.
Qed.

Lemma pack4 (d0 d1 d2 d3 : Z) :
  0 <= d0 < 64 -> 0 <= d1 < 64 -> 0 <= d2 < 64 -> 0 <= d3 < 64 ->
  Z.lor (Z.lor (Z.lor (Z.shiftl d0 18) (Z.shiftl d1 12)) (Z.shiftl d2 6)) d3
  = d0 * 262144 + d1 * 4096 + d2 * 64 + d3.
Proof.
  intros H0 H1 H2 H3. rewrite !Z.shiftl_mul_pow2 by lia.
  change (2 ^ 18) with 262144. change (2 ^ 12) with 4096.
  change (2 ^ 6) with 64.
  rewrite (lor_disjoint (d0 * 262144) (d1 * 4096) 18); [ | lia | | lia ].
  - rewrite (lor_disjoint _ (d2 * 64) 12); [ | lia | | lia ].
    + apply (lor_disjoint _ d3 6); [ lia | | lia ].
      change (2 ^ 6) with 64. Z.div_mod_to_equations. lia.
    + change (2 ^ 12) with 4096. Z.div_mod_to_equations. lia.
  - change (2 ^ 18) with 262144. Z.div_mod_to_equations. lia.
Qed.

Lemma sextet_range (v : Z) : 0 <= Z.land v 63 < 64.
Proof. rewrite mask6. apply Z.mod_pos_bound. lia. Qed.

Lemma decodeMap_encode (i : Z) :
  0 <= i < 64 -> base64.decodeMap (base64.encode i) = Some i.
Proof.
  intros Hi.
  assert (A : forallb
                (fun n =>
                   match base64.decodeMap (base64.encode (Z.of_nat n)) with
                   | Some j => Z.eqb j (Z.of_nat n)
                   | None => false
                   end) (seq 0 64) = true) by (vm_compute; reflexivity).
  rewrite forallb_forall in A. specialize (A (Z.to_nat i)).
  rewrite Z2Nat.id in A by lia.
  destruct (base64.decodeMap (base64.encode i)) as [j|].
  - f_equal. apply Z.eqb_eq. apply A. apply in_seq. lia.
  - discriminate A. apply in_seq. lia.
Qed.

Lemma encode_plain (i : Z) :
  0 <= i < 64 ->
  base64.isNewline (base64.encode i) = false.
Proof.
  intros Hi.
  assert (A : forallb
                (fun n => negb (base64.isNewline (base64.encode (Z.of_nat n))))
                (seq 0 64) = true) by (vm_compute; reflexivity).
  rewrite forallb_forall in A. specialize (A (Z.to_nat i)).
  rewrite Z2Nat.id in A by lia. apply negb_true_iff, A, in_seq. lia.
Qed.

Lemma quantum_full (b0 b1 b2 : byte) :
  let val := Z.lor (Z.lor (Z.shiftl (Z_of_byte b0) 16)
                          (Z.shiftl (Z_of_byte b1) 8)) (Z_of_byte b2) in
  base64.quantum 4 (Z.land (Z.shiftr val 18) 63) (Z.land (Z.shiftr val 12) 63)
                   (Z.land (Z.shiftr val 6) 63) (Z.land val 63)
  = [b0; b1; b2].
Proof.
  intros val. unfold base64.quantum.
  pose proof (Z_of_byte_range b0) as R0.
  pose proof (Z_of_byte_range b1) as R1.
  pose proof (Z_of_byte_range b2) as R2.
  rewrite pack4 by apply sextet_range.
  assert (V : val = Z_of_byte b0 * 65536 + Z_of_byte b1 * 256 + Z_of_byte b2)
    by (apply pack3; assumption).
  rewrite !mask6, !Z.shiftr_div_pow2 by lia.
  change (2 ^ 18) with 262144. change (2 ^ 12) with 4096.
  change (2 ^ 6) with 64. change (2 ^ 16) with 65536. change (2 ^ 8) with 256.
  assert (E : val / 262144 mod 64 * 262144 + val / 4096 mod 64 * 4096
              + val / 64 mod 64 * 64 + val mod 64 = val).
  { rewrite V. Z.div_mod_to_equations. lia. }
  rewrite E. cbn [take Nat.sub].
  f_equal; [ | f_equal; [ | f_equal ] ]; apply byte_of_Z_low; rewrite mask8, V;
    Z.div_mod_to_equations; lia.
Qed.

Lemma quantum_one (b0 : byte) :
  let val := Z.shiftl (Z_of_byte b0) 16 in
  base64.quantum 2 (Z.land (Z.shiftr val 18) 63) (Z.land (Z.shiftr val 12) 63)
                   0 0
  = [b0].
Proof.
  intros val. unfold base64.quantum.
  pose proof (Z_of_byte_range b0) as R0.
  rewrite pack4 by (try apply sextet_range; lia).
  assert (V : val = Z_of_byte b0 * 65536)
    by (unfold val; rewrite Z.shiftl_mul_pow2 by lia; reflexivity).
  rewrite !mask6, !Z.shiftr_div_pow2 by lia.
  change (2 ^ 18) with 262144. change (2 ^ 12) with 4096.
  change (2 ^ 16) with 65536.
  assert (E : val / 262144 mod 64 * 262144 + val / 4096 mod 64 * 4096
              + 0 * 64 + 0 = val).
  { rewrite V. Z.div_mod_to_equations. lia. }
  rewrite E. cbn [take Nat.sub].
  f_equal. apply byte_of_Z_low. rewrite mask8, V. Z.div_mod_to_equations. lia.
Qed.

Lemma quantum_two (b0 b1 : byte) :
  let val := Z.lor (Z.shiftl (Z_of_byte b0) 16) (Z.shiftl (Z_of_byte b1) 8) in
  base64.quantum 3 (Z.land (Z.shiftr val 18) 63) (Z.land (Z.shiftr val 12) 63)
                   (Z.land (Z.shiftr val 6) 63) 0
  = [b0; b1].
Proof.
  intros val. unfold base64.quantum.
  pose proof (Z_of_byte_range b0) as R0.
  pose proof (Z_of_byte_range b1) as R1.
  rewrite pack4 by (try apply sextet_range; lia).
  assert (V : val = Z_of_byte b0 * 65536 + Z_of_byte b1 * 256).
  { unfold val. rewrite !Z.shiftl_mul_pow2 by lia.
    change (2 ^ 16) with 65536. change (2 ^ 8) with 256.
    apply (lor_disjoint _ _ 16); [ lia | | lia ].
    change (2 ^ 16) with 65536. Z.div_mod_to_equations. lia. }
  rewrite !mask6, !Z.shiftr_div_pow2 by lia.
  change (2 ^ 18) with 262144. change (2 ^ 12) with 4096.
  change (2 ^ 6) with 64. change (2 ^ 16) with 65536. change (2 ^ 8) with 256.
  assert (E : val / 262144 mod 64 * 262144 + val / 4096 mod 64 * 4096
              + val / 64 mod 64 * 64 + 0 = val).
  { rewrite V. Z.div_mod_to_equations. lia. }
  rewrite E. cbn [take Nat.sub].
  f_equal; [ | f_equal ]; apply byte_of_Z_low; rewrite mask8, V;
    Z.div_mod_to_equations; lia.
Qed.

Lemma list_ind3 {A : Type} (P : list A -> Prop) :
  P [] -> (forall a, P [a]) -> (forall a b, P [a; b]) ->
  (forall a b c l, P l -> P (a :: b :: c :: l)) ->
  forall l, P l.
Proof.
  intros H0 H1 H2 H3.
  fix IH 1. intros [ | a [ | b [ | c l ] ] ];
    [ apply H0 | apply H1 | apply H2 | apply H3, IH ].
Qed.

Lemma decodeQuanta_Encode (bs : list byte) :
  base64.decodeQuanta (base64.Encode bs) = Some bs.
Proof.
  induction bs as [ | b0 | b0 b1 | b0 b1 b2 rest IH ] using list_ind3.
  - reflexivity.
  - cbn [base64.Encode base64.decodeQuanta].
    rewrite !decodeMap_encode by apply sextet_range.
    change (base64.decodeMap base64.padChar) with (@None Z).
    cbn [base64.isPad base64.atEnd andb]. 
    change (base64.isPad base64.padChar) with true. cbn [andb].
    f_equal. apply quantum_one.
  - cbn [base64.Encode base64.decodeQuanta].
    rewrite !decodeMap_encode by apply sextet_range.
    change (base64.decodeMap base64.padChar) with (@None Z).
    change (base64.isPad base64.padChar) with true. cbn [base64.atEnd andb].
    f_equal. apply quantum_two.
  - cbn [base64.Encode]. unfold base64.encode3. cbn [app base64.decodeQuanta].
    rewrite !decodeMap_encode by apply sextet_range.
    rewrite IH. f_equal.
    change (b0 :: b1 :: b2 :: rest) with ([b0; b1; b2] ++ rest).
    f_equal. apply quantum_full.
Qed.

Lemma Encode_no_newline (bs : list byte) :
  List.filter (fun c => negb (base64.isNewline c)) (base64.Encode bs)
  = base64.Encode bs.
Proof.
  induction bs as [ | b0 | b0 b1 | b0 b1 b2 rest IH ] using list_ind3.
  - reflexivity.
  - cbn [base64.Encode List.filter].
    rewrite !encode_plain by apply sextet_range. reflexivity.
  - cbn [base64.Encode List.filter].
    rewrite !encode_plain by apply sextet_range. reflexivity.
  - cbn [base64.Encode]. unfold base64.encode3. cbn [app List.filter].
    rewrite !encode_plain by apply sextet_range. cbn [negb]. rewrite IH.
    reflexivity.
Qed.

Theorem DecodeString_EncodeToString (bs : list byte) :
  base64.DecodeString (base64.EncodeToString bs) = Some bs.
Proof.
  unfold base64.DecodeString, base64.EncodeToString.
  rewrite list_ascii_of_string_of_list_ascii, Encode_no_newline.
  apply decodeQuanta_Encode.
Qed.

(** ** The capture buffer *)

Section Buffer.
Import ResponseBuffer.

Lemma ServeHTTP_app (cs1 cs2 : list call) (o : t) :
  ServeHTTP (cs1 ++ cs2) o = ServeHTTP cs2 (ServeHTTP cs1 o).
Proof. unfold ServeHTTP. apply foldl_app. Qed.

Lemma ServeHTTP_cons (c : call) (cs : list call) (o : t) :
  ServeHTTP (c :: cs) o = ServeHTTP cs (perform o c).
Proof. reflexivity. Qed.

Lemma WriteHeader_committed (c : Z) (o : t) :
  wroteHeader o = true -> WriteHeader c o = o.
Proof. intros W. unfold WriteHeader. rewrite W. reflexivity. Qed.

Lemma WriteHeader_fresh (c : Z) (o : t) :
  wroteHeader o = false ->
  WriteHeader c o = mk c (header o) (buf o) true.
Proof. intros W. unfold WriteHeader. rewrite W. reflexivity. Qed.

Lemma Write_spec (bs : list byte) (o : t) :
  Write bs o =
  ((Z.of_nat (length bs), None),
   mk (if wroteHeader o
       then (if Z.eqb (statusCode o) 0 then 200 else statusCode o)
       else 200)
      (header o) (buf o ++ bs) true).
Proof.
  unfold Write, WriteHeader, Buffer.Write, http.StatusOK.
  destruct (wroteHeader o) eqn:W; cbn [negb].
  - destruct (Z.eqb (statusCode o) 0); cbn; rewrite ?W; reflexivity.
  - reflexivity.
Qed.

(** Once committed with a non-zero status, nothing the handler does
    changes the status. *)
Lemma perform_committed (c : call) (o : t) :
  wroteHeader o = true -> statusCode o <> 0 ->
  wroteHeader (perform o c) = true /\
  statusCode (perform o c) = statusCode o.
Proof.
  intros W S. destruct c as [f | s | bs]; cbn [perform].
  - unfold Header. destruct (header o); cbn; auto.
  - rewrite WriteHeader_committed by assumption. auto.
  - rewrite Write_spec. cbn. rewrite W.
    destruct (Z.eqb_spec (statusCode o) 0); [ contradiction | auto ].
Qed.

Lemma ServeHTTP_committed (cs : list call) (o : t) :
  wroteHeader o = true -> statusCode o <> 0 ->
  wroteHeader (ServeHTTP cs o) = true /\
  statusCode (ServeHTTP cs o) = statusCode o.
Proof.
  revert o. induction cs as [ | c cs IH ]; intros o W S.
  - auto.
  - rewrite ServeHTTP_cons.
    destruct (perform_committed c o W S) as [W' S'].
    destruct (IH (perform o c)) as [W'' S'']; [ assumption | congruence | ].
    split; congruence.
Qed.

(** The flag, once set, stays set. *)
Lemma perform_wroteHeader (c : call) (o : t) :
  wroteHeader o = true -> wroteHeader (perform o c) = true.
Proof.
  intros W. destruct c as [f | s | bs]; cbn [perform].
  - unfold Header. destruct (header o); cbn; auto.
  - rewrite WriteHeader_committed by assumption. auto.
  - rewrite Write_spec. reflexivity.
Qed.

(** Before any status-set call the buffer is either untouched (flag
    unset, status zero) or committed to 200 by a write. *)
Lemma ServeHTTP_no_WriteHeader (cs : list call) (o : t) :
  forallb (fun c => negb (isWriteHeader c)) cs = true ->
  (wroteHeader o = false /\ statusCode o = 0) \/
  (wroteHeader o = true /\ statusCode o = 200) ->
  (wroteHeader (ServeHTTP cs o) = false /\ statusCode (ServeHTTP cs o) = 0) \/
  (wroteHeader (ServeHTTP cs o) = true /\ statusCode (ServeHTTP cs o) = 200).
Proof.
  revert o. induction cs as [ | c cs IH ]; intros o F I.
  - exact I.
  - cbn [forallb] in F. apply andb_prop in F as [Fc F].
    rewrite ServeHTTP_cons. apply IH; [ exact F | ].
    destruct c as [f | s | bs]; cbn [perform].
    + unfold Header. destruct (header o); cbn; exact I.
    + discriminate Fc.
    + rewrite Write_spec. cbn. right. split; [ reflexivity | ].
      destruct I as [[W S] | [W S]]; rewrite W; [ reflexivity | ].
      rewrite S. reflexivity.
Qed.

End Buffer.

(** ** The error-response helper *)

(** C10: for every status code and message, [errorResponse] gives an
    envelope with the base64 flag false, the given status, a header map
    whose only entry is Content-Type with the single value text/plain,
    and the message as its body. *)
Theorem errorResponse_shape (status : Z) (msg : string) :
  ProxyResponse.Base64 (errorResponse status msg) = false /\
  ProxyResponse.Status (errorResponse status msg) = status /\
  (exists m : http.Header,
      ProxyResponse.Header (errorResponse status msg) = Some m /\
      map_to_list m = [("Content-Type", ["text/plain"])]) /\
  ProxyResponse.Body (errorResponse status msg) = msg.
Proof.
  repeat split.
  eexists. split; [ reflexivity | ]. apply map_to_list_singleton.
Qed.

(** ** Rendering the envelope *)

Lemma Header_Get_committed (o : ResponseBuffer.t) :
  http.Header_Get (ResponseBuffer.header o) "Content-Type"
  = default "" (committed "Content-Type" o).
Proof.
  unfold http.Header_Get, committed.
  change (textproto.CanonicalMIMEHeaderKey "Content-Type") with "Content-Type".
  destruct (ResponseBuffer.header o) as [m | ]; [ | reflexivity ].
  destruct (m !! "Content-Type") as [[ | v vs] | ]; reflexivity.
Qed.

(** C2: the rendered envelope carries the accumulated bytes as they are,
    with the flag false, when the committed Content-Type is exactly
    application/json, and their base64 encoding, with the flag true, for
    any other committed value and when there is none. *)
Theorem ToLambdaProxyResponse_encoding (o : ResponseBuffer.t) :
  (committed "Content-Type" o = Some "application/json" ->
   ProxyResponse.Base64 (ResponseBuffer.ToLambdaProxyResponse o) = false /\
   ProxyResponse.Body (ResponseBuffer.ToLambdaProxyResponse o)
   = string_of_bytes (ResponseBuffer.buf o)) /\
  (committed "Content-Type" o <> Some "application/json" ->
   ProxyResponse.Base64 (ResponseBuffer.ToLambdaProxyResponse o) = true /\
   ProxyResponse.Body (ResponseBuffer.ToLambdaProxyResponse o)
   = base64.EncodeToString (ResponseBuffer.buf o)) /\
  (committed "Content-Type" o = None ->
   ProxyResponse.Base64 (ResponseBuffer.ToLambdaProxyResponse o) = true /\
   ProxyResponse.Body (ResponseBuffer.ToLambdaProxyResponse o)
   = base64.EncodeToString (ResponseBuffer.buf o)).
Proof.
  unfold ResponseBuffer.ToLambdaProxyResponse. cbn.
  rewrite Header_Get_committed. split; [ | split ]; intros E.
  - rewrite E. cbn. auto.
  - destruct (String.eqb_spec (default "" (committed "Content-Type" o))
                "application/json") as [J | J]; cbn; [ | auto ].
    destruct (committed "Content-Type" o) as [v | ]; cbn in J.
    + subst v. contradiction.
    + discriminate J.
  - rewrite E. cbn. auto.
Qed.

(** Buffers after three handlers: one declares JSON, one declares plain
    text, one declares nothing; each writes [hello]. *)
Lemma ToLambdaProxyResponse_encoding_witness :
  (let o := ServeHTTP
              [CallHeader (http.Header_Add "Content-Type" "application/json");
               CallWrite (bytes_of_string "hello")] ResponseBuffer.zero in
   ProxyResponse.Base64 (ResponseBuffer.ToLambdaProxyResponse o) = false /\
   ProxyResponse.Body (ResponseBuffer.ToLambdaProxyResponse o) = "hello") /\
  (let o := ServeHTTP
              [CallHeader (http.Header_Add "Content-Type" "text/plain");
               CallWrite (bytes_of_string "hello")] ResponseBuffer.zero in
   ProxyResponse.Base64 (ResponseBuffer.ToLambdaProxyResponse o) = true /\
   ProxyResponse.Body (ResponseBuffer.ToLambdaProxyResponse o) = "aGVsbG8=") /\
  (let o := ServeHTTP [CallWrite (bytes_of_string "hello")]
              ResponseBuffer.zero in
   ProxyResponse.Base64 (ResponseBuffer.ToLambdaProxyResponse o) = true /\
   ProxyResponse.Body (ResponseBuffer.ToLambdaProxyResponse o) = "aGVsbG8=").
Proof.
  split; [ | split ]; intros o.
  - apply (proj1 (ToLambdaProxyResponse_encoding o)). reflexivity.
  - apply (proj1 (proj2 (ToLambdaProxyResponse_encoding o))).
    vm_compute. discriminate.
  - apply (proj2 (proj2 (ToLambdaProxyResponse_encoding o))). reflexivity.
Defined.


(** ** Status commitment *)

Lemma ServeHTTP_Write_first (pre post : list call) (bs : list byte) :
  forallb (fun c => negb (isWriteHeader c)) pre = true ->
  ResponseBuffer.wroteHeader
    (ServeHTTP (pre ++ CallWrite bs :: post) ResponseBuffer.zero) = true /\
  ResponseBuffer.statusCode
    (ServeHTTP (pre ++ CallWrite bs :: post) ResponseBuffer.zero) = 200.
Proof.
  intros F.
  assert (P : ResponseBuffer.wroteHeader
                (ServeHTTP (pre ++ [CallWrite bs]) ResponseBuffer.zero)
              = true /\
              ResponseBuffer.statusCode
                (ServeHTTP (pre ++ [CallWrite bs]) ResponseBuffer.zero)
              = 200).
  { rewrite ServeHTTP_app. cbn [ServeHTTP foldl perform].
    rewrite Write_spec. cbn. split; [ reflexivity | ].
    fold (ServeHTTP pre ResponseBuffer.zero).
    destruct (ServeHTTP_no_WriteHeader pre ResponseBuffer.zero F)
      as [[W S] | [W S]].
    - left. split; reflexivity.
    - rewrite W. reflexivity.
    - rewrite W, S. reflexivity. }
  destruct P as [W S].
  change (pre ++ CallWrite bs :: post) with (pre ++ [CallWrite bs] ++ post).
  rewrite app_assoc, ServeHTTP_app.
  destruct (ServeHTTP_committed post _ W) as [W' S'];
    [ rewrite S; discriminate | ].
  split; congruence.
Qed.

(** C6: when a write on a fresh buffer comes before any status-set call,
    the committed status is 200, it stays 200 whatever the handler does
    afterwards, and the rendered envelope has status 200. *)
Theorem Write_first_status_200 (pre post : list call) (bs : list byte) :
  forallb (fun c => negb (isWriteHeader c)) pre = true ->
  ResponseBuffer.statusCode
    (ServeHTTP (pre ++ [CallWrite bs]) ResponseBuffer.zero) = 200 /\
  ResponseBuffer.wroteHeader
    (ServeHTTP (pre ++ CallWrite bs :: post) ResponseBuffer.zero) = true /\
  ResponseBuffer.statusCode
    (ServeHTTP (pre ++ CallWrite bs :: post) ResponseBuffer.zero) = 200 /\
  ProxyResponse.Status
    (ResponseBuffer.ToLambdaProxyResponse
       (ServeHTTP (pre ++ CallWrite bs :: post) ResponseBuffer.zero)) = 200.
Proof.
  intros F.
  destruct (ServeHTTP_Write_first pre [] bs F) as [_ S0].
  destruct (ServeHTTP_Write_first pre post bs F) as [W S].
  repeat split; assumption.
Qed.

Lemma Write_first_status_200_witness :
  let o := ServeHTTP
             [CallHeader (http.Header_Add "Content-Type" "text/plain");
              CallWrite (bytes_of_string "hello");
              CallWriteHeader 404] ResponseBuffer.zero in
  ResponseBuffer.statusCode o = 200 /\
  ProxyResponse.Status (ResponseBuffer.ToLambdaProxyResponse o) = 200.
Proof.
  intros o.
  pose proof (Write_first_status_200
                [CallHeader (http.Header_Add "Content-Type" "text/plain")]
                [CallWriteHeader 404] (bytes_of_string "hello") eq_refl)
    as [_ [_ [S R]]].
  split; [ exact S | exact R ].
Defined.

(** C7: a status-set call made once the header is committed is ignored.
    On a committed buffer [WriteHeader] changes nothing; of two
    successive calls only the first code is kept, in the buffer and in
    the rendered envelope; and inside any sequence of calls, dropping a
    status-set call that comes after the commitment leaves the outcome
    unchanged. *)
Theorem WriteHeader_first_wins (o : ResponseBuffer.t) (c1 c2 : Z) :
  (ResponseBuffer.wroteHeader o = true ->
   ResponseBuffer.WriteHeader c2 o = o) /\
  (ResponseBuffer.wroteHeader o = false ->
   let o' := ResponseBuffer.WriteHeader c2 (ResponseBuffer.WriteHeader c1 o) in
   o' = ResponseBuffer.WriteHeader c1 o /\
   ResponseBuffer.statusCode o' = c1 /\
   ProxyResponse.Status (ResponseBuffer.ToLambdaProxyResponse o') = c1) /\
  (forall pre post : list call,
      ResponseBuffer.wroteHeader (ServeHTTP pre o) = true ->
      ServeHTTP (pre ++ CallWriteHeader c2 :: post) o
      = ServeHTTP (pre ++ post) o).
Proof.
  split; [ | split ].
  - apply WriteHeader_committed.
  - intros W o'. unfold o'.
    rewrite (WriteHeader_committed c2) by (rewrite WriteHeader_fresh; auto).
    rewrite WriteHeader_fresh by assumption. auto.
  - intros pre post W. rewrite !ServeHTTP_app, ServeHTTP_cons.
    cbn [perform]. rewrite WriteHeader_committed by assumption. reflexivity.
Qed.

Lemma WriteHeader_first_wins_witness :
  let o := ResponseBuffer.WriteHeader 404
             (ResponseBuffer.WriteHeader 201 ResponseBuffer.zero) in
  ResponseBuffer.statusCode o = 201 /\
  ProxyResponse.Status (ResponseBuffer.ToLambdaProxyResponse o) = 201 /\
  ResponseBuffer.WriteHeader 404 o = o /\
  ServeHTTP ([CallWriteHeader 201] ++ CallWriteHeader 404
               :: [CallWrite (bytes_of_string "hello")]) ResponseBuffer.zero
  = ServeHTTP ([CallWriteHeader 201] ++ [CallWrite (bytes_of_string "hello")])
      ResponseBuffer.zero.
Proof.
  intros o.
  destruct (WriteHeader_first_wins ResponseBuffer.zero 201 404)
    as [_ [H2 H3]].
  destruct (WriteHeader_first_wins o 201 404) as [H1 _].
  specialize (H2 eq_refl). cbv zeta in H2. destruct H2 as [_ [H2a H2b]].
  split; [ exact H2a | ]. split; [ exact H2b | ].
  split; [ apply H1; reflexivity | ].
  apply (H3 [CallWriteHeader 201]). reflexivity.
Defined.

(** ** Building the request *)

Section Entry.
Context `{GoLib}.

Lemma NewRequestWithContext_Ok (method url : string) (bs : list byte)
    (u : URL) :
  acceptable method -> url_Parse url = Ok u ->
  http.NewRequestWithContext method url bs
  = Ok {| http.Method := if String.eqb method "" then "GET" else method;
          http.Url := u; http.Header_ := ∅; http.Body := bs;
          http.ContentLength := Z.of_nat (length bs) |}.
Proof.
  intros A P. unfold http.NewRequestWithContext. rewrite P.
  destruct A as [-> | V]; [ reflexivity | ].
  destruct (String.eqb method ""); [ reflexivity | ].
  rewrite V. reflexivity.
Qed.

Lemma NewRequestWithContext_Err (method url : string) (bs : list byte) :
  (method <> "" /\ http.validMethod method = false) \/
  (exists e, url_Parse url = Err e) ->
  exists e, http.NewRequestWithContext method url bs = Err e.
Proof.
  intros D. unfold http.NewRequestWithContext.
  destruct (String.eqb_spec method "") as [-> | N].
  - destruct D as [[N _] | [e P]]; [ contradiction | ].
    cbn. rewrite P. eauto.
  - destruct (http.validMethod method) eqn:V; cbn.
    + destruct D as [[_ V'] | [e P]]; [ discriminate | ].
      rewrite P. eauto.
    + eauto.
Qed.

Lemma NewRequestWithContext_Body (method url : string) (bs : list byte)
    (req : http.Request) :
  http.NewRequestWithContext method url bs = Ok req -> http.Body req = bs.
Proof.
  unfold http.NewRequestWithContext.
  destruct (negb _); [ discriminate | ].
  destruct (url_Parse url); [ | discriminate ].
  intros [= <-]. reflexivity.
Qed.

Lemma NewRequestWithContext_Header (method url : string) (bs : list byte)
    (req : http.Request) :
  http.NewRequestWithContext method url bs = Ok req -> http.Header_ req = ∅.
Proof.
  unfold http.NewRequestWithContext.
  destruct (negb _); [ discriminate | ].
  destruct (url_Parse url); [ | discriminate ].
  intros [= <-]. reflexivity.
Qed.

Lemma handleLambdaReq_run (h : handler) (preq : ProxyRequest.t) :
  run h preq (handleLambdaReq h preq).
Proof.
  unfold handleLambdaReq.
  destruct (requestBody preq) as [bs | ] eqn:B; [ | by constructor ].
  destruct (http.NewRequestWithContext _ _ bs) as [req0 | e] eqn:N;
    [ | by econstructor ].
  cbv zeta.
  destruct (ResponseBuffer.wroteHeader _) eqn:W; cbn [negb].
  - by eapply run_rendered.
  - by eapply run_silent.
Qed.


Lemma set_Header_Body (hd : http.Header) (req : http.Request) :
  http.Body (http.set_Header hd req) = http.Body req.
Proof. reflexivity. Qed.

(** C1: with the base64 flag false the request handed to the handler has
    the bytes of the body text as its body; with the flag true and a body
    that decodes, it has the decoded bytes; in both cases the request is
    built and served once whenever the constructor accepts the method and
    the path.  With the flag true and a body that does not decode the
    result is the status 400 envelope and no request is built: the
    handler is not invoked. *)
Theorem request_body (h : handler) (preq : ProxyRequest.t) :
  (ProxyRequest.Base64 preq = false ->
   (forall req, req ∈ served (events (handleLambdaReq h preq)) ->
                http.Body req = bytes_of_string (ProxyRequest.Body preq)) /\
   (forall u, acceptable (ProxyRequest.HttpMethod preq) ->
              url_Parse (ProxyRequest.Path preq) = Ok u ->
              exists req,
                served (events (handleLambdaReq h preq)) = [req] /\
                http.Body req = bytes_of_string (ProxyRequest.Body preq))) /\
  (forall bs,
      ProxyRequest.Base64 preq = true ->
      base64.DecodeString (ProxyRequest.Body preq) = Some bs ->
      (forall req, req ∈ served (events (handleLambdaReq h preq)) ->
                   http.Body req = bs) /\
      (forall u, acceptable (ProxyRequest.HttpMethod preq) ->
                 url_Parse (ProxyRequest.Path preq) = Ok u ->
                 exists req,
                   served (events (handleLambdaReq h preq)) = [req] /\
                   http.Body req = bs)) /\
  (ProxyRequest.Base64 preq = true ->
   base64.DecodeString (ProxyRequest.Body preq) = None ->
   response (handleLambdaReq h preq)
   = errorResponse 400 "could not decode body" /\
   ProxyResponse.Status (response (handleLambdaReq h preq)) = 400 /\
   err (handleLambdaReq h preq) = None /\
   served (events (handleLambdaReq h preq)) = []).
Proof.
  assert (G : forall bs,
             requestBody preq = Some bs ->
             (forall req, req ∈ served (events (handleLambdaReq h preq)) ->
                          http.Body req = bs) /\
             (forall u, acceptable (ProxyRequest.HttpMethod preq) ->
                        url_Parse (ProxyRequest.Path preq) = Ok u ->
                        exists req,
                          served (events (handleLambdaReq h preq)) = [req] /\
                          http.Body req = bs)).
  { intros bs B. split.
    - intros req I.
      destruct (handleLambdaReq_run h preq)
        as [B' | bs' e B' N | bs' req0 req' B' N -> W
            | bs' req0 req' B' N -> W];
        cbn in I; try (by apply elem_of_nil in I);
        apply list_elem_of_singleton in I; subst req;
        rewrite set_Header_Body, (NewRequestWithContext_Body _ _ _ _ N);
        congruence.
    - intros u A P.
      pose proof (NewRequestWithContext_Ok _ _ bs u A P) as N.
      destruct (handleLambdaReq_run h preq)
        as [B' | bs' e B' N' | bs' req0 req' B' N' -> W
            | bs' req0 req' B' N' -> W];
        try congruence;
        (eexists; split; [ reflexivity | ];
         rewrite set_Header_Body, (NewRequestWithContext_Body _ _ _ _ N');
         congruence). }
  split; [ | split ].
  - intros F. apply G. unfold requestBody. rewrite F. reflexivity.
  - intros bs F D. apply G. unfold requestBody. rewrite F. exact D.
  - intros F D.
    assert (B : requestBody preq = None)
      by (unfold requestBody; rewrite F; exact D).
    destruct (handleLambdaReq_run h preq)
      as [B' | bs' e B' N' | bs' req0 req' B' N' -> W
          | bs' req0 req' B' N' -> W];
      try congruence.
    repeat split; reflexivity.
Qed.

(** ** The recoverable errors *)

Lemma errorResponse_plainText (status : Z) (msg : string) :
  plainText (errorResponse status msg) status msg.
Proof. repeat split. Qed.

(** C3, as the code has it: when the handler returns with the
    header-written flag unset, the envelope has status 500, the base64
    flag false and the literal text "internal server error" as its body,
    and one message is logged. *)
Theorem silent_handler_500 (h : handler) (preq : ProxyRequest.t)
    (req : http.Request) :
  req ∈ served (events (handleLambdaReq h preq)) ->
  ResponseBuffer.wroteHeader (ServeHTTP (mux h req) ResponseBuffer.zero)
  = false ->
  ProxyResponse.Status (response (handleLambdaReq h preq)) = 500 /\
  ProxyResponse.Base64 (response (handleLambdaReq h preq)) = false /\
  ProxyResponse.Body (response (handleLambdaReq h preq))
  = "internal server error" /\
  ProxyResponse.Body (response (handleLambdaReq h preq)) <> "" /\
  err (handleLambdaReq h preq) = None /\
  logged (events (handleLambdaReq h preq))
  = ["HTTP handler returned without writing a header or body"].
Proof.
  intros I W.
  destruct (handleLambdaReq_run h preq)
    as [B | bs e B N | bs req0 req' B N E W' | bs req0 req' B N E W'];
    cbn in I; try (by apply elem_of_nil in I);
    apply list_elem_of_singleton in I; subst req'.
  - cbn. repeat split; discriminate.
  - congruence.
Qed.

(** A handler that makes no call, or only touches the header map, leaves
    the flag unset. *)
Lemma ServeHTTP_only_headers (cs : list call) (o : ResponseBuffer.t) :
  forallb (fun c => match c with CallHeader _ => true | _ => false end) cs
  = true ->
  ResponseBuffer.wroteHeader (ServeHTTP cs o) = ResponseBuffer.wroteHeader o.
Proof.
  revert o. induction cs as [ | c cs IH ]; intros o F; [ reflexivity | ].
  cbn [forallb] in F. apply andb_prop in F as [Fc F].
  rewrite ServeHTTP_cons, IH by exact F.
  destruct c as [f | s | bs]; try discriminate Fc.
  cbn [perform]. unfold ResponseBuffer.Header.
  destruct (ResponseBuffer.header o); reflexivity.
Qed.

(** C4: the three recoverable errors.  No invocation returns an error;
    a body that does not decode, a method or path the request
    constructor rejects, and a handler that returns with the flag unset
    each give a plain-text envelope with status 400, 400 and 500 and one
    logged message. *)
Theorem recoverable_errors (h : handler) (preq : ProxyRequest.t) :
  err (handleLambdaReq h preq) = None /\
  (ProxyRequest.Base64 preq = true ->
   base64.DecodeString (ProxyRequest.Body preq) = None ->
   plainText (response (handleLambdaReq h preq)) 400 "could not decode body" /\
   logged (events (handleLambdaReq h preq))
   = ["could not decode body as base64"]) /\
  (forall bs,
      requestBody preq = Some bs ->
      (ProxyRequest.HttpMethod preq <> "" /\
       http.validMethod (ProxyRequest.HttpMethod preq) = false) \/
      (exists e, url_Parse (ProxyRequest.Path preq) = Err e) ->
      plainText (response (handleLambdaReq h preq)) 400
        "could not create request, check url and http method" /\
      exists e, logged (events (handleLambdaReq h preq))
                = ["could not create request : " +:+ e]) /\
  (forall req,
      req ∈ served (events (handleLambdaReq h preq)) ->
      ResponseBuffer.wroteHeader (ServeHTTP (mux h req) ResponseBuffer.zero)
      = false ->
      plainText (response (handleLambdaReq h preq)) 500
        "internal server error" /\
      logged (events (handleLambdaReq h preq))
      = ["HTTP handler returned without writing a header or body"]).
Proof.
  split; [ | split; [ | split ] ].
  - destruct (handleLambdaReq_run h preq); reflexivity.
  - intros F D.
    assert (B : requestBody preq = None)
      by (unfold requestBody; rewrite F; exact D).
    destruct (handleLambdaReq_run h preq); try congruence.
    split; [ apply errorResponse_plainText | reflexivity ].
  - intros bs B D.
    destruct (NewRequestWithContext_Err _ _ bs D) as [e N].
    destruct (handleLambdaReq_run h preq); try congruence.
    split; [ apply errorResponse_plainText | eauto ].
  - intros req I W.
    destruct (handleLambdaReq_run h preq)
      as [B | bs e B N | bs req0 req' B N E W' | bs req0 req' B N E W'];
      cbn in I; try (by apply elem_of_nil in I);
      apply list_elem_of_singleton in I; subst req'.
    + split; [ apply errorResponse_plainText | reflexivity ].
    + congruence.
Qed.

(** The same through the entry point: a handler whose first
    status-committing call is a write gets the status 200 envelope. *)
Lemma handleLambdaReq_Write_first (h : handler) (preq : ProxyRequest.t)
    (req : http.Request) (pre post : list call) (bs : list byte) :
  req ∈ served (events (handleLambdaReq h preq)) ->
  mux h req = pre ++ CallWrite bs :: post ->
  forallb (fun c => negb (isWriteHeader c)) pre = true ->
  ProxyResponse.Status (response (handleLambdaReq h preq)) = 200.
Proof.
  intros I M F.
  destruct (ServeHTTP_Write_first pre post bs F) as [W S].
  destruct (handleLambdaReq_run h preq)
    as [B | bs' e B N | bs' req0 req' B N E W' | bs' req0 req' B N E W'];
    cbn in I; try (by apply elem_of_nil in I);
    apply list_elem_of_singleton in I; subst req'.
  - rewrite M in W'. congruence.
  - cbn. rewrite M. exact S.
Qed.

(** ** The agreement invariant *)

Lemma agreement_rendered (o : ResponseBuffer.t) :
  agreement (ResponseBuffer.ToLambdaProxyResponse o) (ResponseBuffer.buf o).
Proof.
  unfold agreement, ResponseBuffer.ToLambdaProxyResponse. cbn.
  destruct (negb _); reflexivity.
Qed.

Lemma agreement_errorResponse (status : Z) (msg : string) :
  agreement (errorResponse status msg) (bytes_of_string msg).
Proof.
  unfold agreement. cbn. unfold string_of_bytes, bytes_of_string.
  symmetry. apply string_of_list_byte_of_string.
Qed.

(** An envelope that agrees with [raw] is read back as [raw]. *)
Lemma agreement_received (r : ProxyResponse.t) (raw : list byte) :
  agreement r raw -> received r = Some raw.
Proof.
  unfold agreement, received. destruct (ProxyResponse.Base64 r); intros ->.
  - apply DecodeString_EncodeToString.
  - unfold string_of_bytes, bytes_of_string.
    rewrite list_byte_of_string_of_list_byte. reflexivity.
Qed.

(** C8: every envelope the entry point returns agrees with the raw bytes
    of the response it carries: the bytes the handler wrote when the
    envelope is rendered from the buffer, the bytes of the diagnostic
    text when it comes from [errorResponse]. *)
Theorem envelope_agreement (h : handler) (preq : ProxyRequest.t) :
  exists raw : list byte,
    agreement (response (handleLambdaReq h preq)) raw /\
    received (response (handleLambdaReq h preq)) = Some raw /\
    ((exists status msg,
         response (handleLambdaReq h preq) = errorResponse status msg /\
         raw = bytes_of_string msg) \/
     (exists req,
         served (events (handleLambdaReq h preq)) = [req] /\
         response (handleLambdaReq h preq)
         = ResponseBuffer.ToLambdaProxyResponse
             (ServeHTTP (mux h req) ResponseBuffer.zero) /\
         raw = ResponseBuffer.buf (ServeHTTP (mux h req) ResponseBuffer.zero))).
Proof.
  destruct (handleLambdaReq_run h preq)
    as [B | bs e B N | bs req0 req B N E W | bs req0 req B N E W];
    cbn [response events served omap].
  1-3: eexists; split; [ apply agreement_errorResponse | ];
       split; [ apply agreement_received, agreement_errorResponse | ];
       left; eauto.
  eexists. split; [ apply agreement_rendered | ].
  split; [ apply agreement_received, agreement_rendered | ].
  right. eauto.
Qed.

End Entry.

(** ** Copying the headers *)

Abbreviation canon := textproto.CanonicalMIMEHeaderKey.

Lemma Header_Values_Add (key value : string) (h : http.Header) (k : string) :
  http.Header_Values (http.Header_Add key value h) k
  = http.Header_Values h k
    ++ (if decide (canon key = canon k) then [value] else []).
Proof.
  unfold http.Header_Values, http.Header_Add. case_decide as E.
  - rewrite E, lookup_insert_eq. reflexivity.
  - rewrite lookup_insert_ne by exact E. rewrite app_nil_r. reflexivity.
Qed.

Lemma Header_Values_singles (l : list (string * string)) (h : http.Header)
    (k : string) :
  http.Header_Values
    (foldl (fun h kv => http.Header_Add (fst kv) (snd kv) h) h l) k
  = http.Header_Values h k
    ++ (filter (fun kv => canon (fst kv) = canon k) l).*2.
Proof.
  revert h. induction l as [ | [key value] l IH ]; intros h.
  - cbn. rewrite app_nil_r. reflexivity.
  - cbn [foldl fst snd]. rewrite IH, Header_Values_Add, filter_cons.
    cbn [fst]. case_decide; cbn; rewrite <- ?app_assoc, ?app_nil_r;
      reflexivity.
Qed.

Lemma Header_Values_each (key : string) (vs : list string) (h : http.Header)
    (k : string) :
  http.Header_Values (foldl (fun h v => http.Header_Add key v h) h vs) k
  = http.Header_Values h k
    ++ (if decide (canon key = canon k) then vs else []).
Proof.
  revert h. induction vs as [ | v vs IH ]; intros h.
  - cbn. case_decide; rewrite app_nil_r; reflexivity.
  - cbn [foldl]. rewrite IH, Header_Values_Add.
    case_decide; rewrite <- ?app_assoc, ?app_nil_r; reflexivity.
Qed.

Lemma Header_Values_multis (l : list (string * list string))
    (h : http.Header) (k : string) :
  http.Header_Values
    (foldl (fun h ks =>
              foldl (fun h v => http.Header_Add (fst ks) v h) h (snd ks))
           h l) k
  = http.Header_Values h k
    ++ concat (filter (fun ks => canon (fst ks) = canon k) l).*2.
Proof.
  revert h. induction l as [ | [key vs] l IH ]; intros h.
  - cbn. rewrite app_nil_r. reflexivity.
  - cbn [foldl fst snd]. rewrite IH, Header_Values_each, filter_cons.
    cbn [fst]. case_decide; cbn; rewrite <- ?app_assoc, ?app_nil_r;
      reflexivity.
Qed.

Section Headers.
Context `{GoLib}.

Lemma copyHeaders_Values (preq : ProxyRequest.t) (h : http.Header)
    (k : string) :
  http.Header_Values (copyHeaders preq h) k
  = http.Header_Values h k
    ++ (filter (fun kv => canon (fst kv) = canon k)
          (range (ProxyRequest.Headers preq))).*2
    ++ concat (filter (fun ks => canon (fst ks) = canon k)
                 (range (ProxyRequest.MultiValueHeaders preq))).*2.
Proof.
  unfold copyHeaders.
  rewrite Header_Values_multis, Header_Values_singles, app_assoc.
  reflexivity.
Qed.

Lemma range_elem_of {V : Type} (m : gmap string V) (k : string) (v : V) :
  (k, v) ∈ range m <-> m !! k = Some v.
Proof. rewrite range_Permutation. apply elem_of_map_to_list. Qed.

Lemma filter_none {A : Type} (P : A -> Prop) `{forall x, Decision (P x)}
    (l : list A) :
  (forall x, x ∈ l -> ~ P x) -> filter P l = [].
Proof.
  induction l as [ | x l IH ]; intros N; [ reflexivity | ].
  rewrite filter_cons, decide_False by (apply N; left).
  apply IH. intros y I. apply N. right. exact I.
Qed.

(** The entries of a map that fall under the canonical form of [k], when
    [k] is the only key of the map with that form. *)
Lemma range_filter_unique {V : Type} (m : gmap string V) (k : string) :
  (forall k', is_Some (m !! k') -> canon k' = canon k -> k' = k) ->
  filter (fun kv => canon (fst kv) = canon k) (range m)
  = match m !! k with Some v => [(k, v)] | None => [] end.
Proof.
  intros U. destruct (m !! k) as [v | ] eqn:L.
  - apply Permutation_singleton_r.
    rewrite range_Permutation, <- (map_to_list_delete m k v L), filter_cons.
    cbn [fst]. rewrite decide_True by reflexivity.
    apply Permutation_skip. apply Permutation_nil_r, filter_none.
    intros [k' v'] I E. cbn [fst] in E.
    apply elem_of_map_to_list in I.
    apply lookup_delete_Some in I as [N I]. apply N. symmetry.
    apply U; [ eauto | exact E ].
  - apply filter_none. intros [k' v'] I E. cbn [fst] in E.
    apply range_elem_of in I.
    assert (k' = k) by (apply U; [ eauto | exact E ]). congruence.
Qed.

Lemma copyHeaders_sublist (preq : ProxyRequest.t) (h : http.Header)
    (k : string) :
  option_list (ProxyRequest.Headers preq !! k)
  ++ default [] (ProxyRequest.MultiValueHeaders preq !! k)
  `sublist_of` http.Header_Values (copyHeaders preq h) k.
Proof.
  rewrite copyHeaders_Values. apply sublist_inserts_l, sublist_app.
  - destruct (ProxyRequest.Headers preq !! k) as [v | ] eqn:L; cbn;
      [ | apply sublist_nil_l ].
    apply singleton_sublist_l.
    apply (list_elem_of_fmap_2 snd _ (k, v)).
    apply list_elem_of_filter. split; [ reflexivity | ].
    apply range_elem_of. exact L.
  - destruct (ProxyRequest.MultiValueHeaders preq !! k) as [vs | ] eqn:L; cbn;
      [ | apply sublist_nil_l ].
    assert (I : (k, vs) ∈ filter (fun ks => canon (fst ks) = canon k)
                  (range (ProxyRequest.MultiValueHeaders preq))).
    { apply list_elem_of_filter. split; [ reflexivity | ].
      apply range_elem_of. exact L. }
    apply list_elem_of_split in I as (l1 & l2 & ->).
    rewrite fmap_app, fmap_cons, concat_app, concat_cons. cbn [snd].
    apply sublist_inserts_l, sublist_inserts_r. reflexivity.
Qed.

Lemma copyHeaders_exact (preq : ProxyRequest.t) (k : string) :
  (forall k',
      is_Some (ProxyRequest.Headers preq !! k') \/
      is_Some (ProxyRequest.MultiValueHeaders preq !! k') ->
      canon k' = canon k -> k' = k) ->
  http.Header_Values (copyHeaders preq ∅) k
  = option_list (ProxyRequest.Headers preq !! k)
    ++ default [] (ProxyRequest.MultiValueHeaders preq !! k).
Proof.
  intros U. rewrite copyHeaders_Values.
  rewrite !range_filter_unique by (intros; apply U; auto).
  unfold http.Header_Values. rewrite lookup_empty. cbn [default app].
  destruct (ProxyRequest.Headers preq !! k);
    destruct (ProxyRequest.MultiValueHeaders preq !! k);
    cbn; rewrite ?app_nil_r; reflexivity.
Qed.

Lemma served_headers (h : handler) (preq : ProxyRequest.t)
    (req : http.Request) :
  req ∈ served (events (handleLambdaReq h preq)) ->
  http.Header_ req = copyHeaders preq ∅.
Proof.
  intros I.
  destruct (handleLambdaReq_run h preq)
    as [B | bs e B N | bs req0 req' B N -> W | bs req0 req' B N -> W];
    cbn in I; try (by apply elem_of_nil in I);
    apply list_elem_of_singleton in I; subst req;
    rewrite (NewRequestWithContext_Header _ _ _ _ N); reflexivity.
Qed.

(** C5: under every key the request handed to the handler carries the
    value of the single-value map followed by the values of the
    multi-value map in list order, none dropped, none merged; when no
    other key of the envelope has the same canonical form these are all
    the values under the key.  In particular X: 1 together with
    X: [2, 3] gives 1, 2, 3. *)
Theorem headers_merged (h : handler) (preq : ProxyRequest.t)
    (req : http.Request) (k : string) :
  req ∈ served (events (handleLambdaReq h preq)) ->
  (option_list (ProxyRequest.Headers preq !! k)
   ++ default [] (ProxyRequest.MultiValueHeaders preq !! k)
   `sublist_of` http.Header_Values (http.Header_ req) k) /\
  ((forall k',
       is_Some (ProxyRequest.Headers preq !! k') \/
       is_Some (ProxyRequest.MultiValueHeaders preq !! k') ->
       canon k' = canon k -> k' = k) ->
   http.Header_Values (http.Header_ req) k
   = option_list (ProxyRequest.Headers preq !! k)
     ++ default [] (ProxyRequest.MultiValueHeaders preq !! k)) /\
  (ProxyRequest.Headers preq = {[ "X" := "1" ]} ->
   ProxyRequest.MultiValueHeaders preq = {[ "X" := ["2"; "3"] ]} ->
   http.Header_ req !! "X" = Some ["1"; "2"; "3"]).
Proof.
  intros I. rewrite (served_headers h preq req I).
  split; [ apply copyHeaders_sublist | ].
  split; [ apply copyHeaders_exact | ].
  intros S M.
  assert (V : http.Header_Values (copyHeaders preq ∅) "X" = ["1"; "2"; "3"]).
  { rewrite copyHeaders_exact.
    - rewrite S, M. reflexivity.
    - rewrite S, M. intros k' [[v L] | [v L]] _;
        apply lookup_singleton_Some in L as [-> _]; reflexivity. }
  unfold http.Header_Values in V.
  change (canon "X") with "X" in V.
  destruct (copyHeaders preq ∅ !! "X") as [vs | ]; cbn in V;
    [ congruence | discriminate ].
Qed.

End Headers.

(** ** Startup configuration *)

Section Startup.
Context `{GoLib}.

Lemma switch_mode_None (mode : string) :
  mode <> "lambda" -> mode <> "http" -> mode <> "" ->
  switch_mode mode = None.
Proof.
  intros L T E. unfold switch_mode.
  destruct (String.eqb_spec mode "lambda"); [ contradiction | ].
  destruct (String.eqb_spec mode ""); [ contradiction | ].
  destruct (String.eqb_spec mode "http"); [ contradiction | ].
  reflexivity.
Qed.

Lemma ConfigFromEnv_http (env : os.Environ) :
  switch_mode
    (strings_ToLower
       (strings_TrimSpace (os.Getenv env "CONNECT_SERVER_MODE")))
  = Some HttpMode ->
  ConfigFromEnv env
  = match env !! "CONNECT_SERVER_ADDR" with
    | Some addr => (Config.mk HttpMode (strings_TrimSpace addr), None)
    | None =>
        (Config.mk HttpMode "",
         Some "missing CONNECT_SERVER_ADDR environment value")
    end.
Proof.
  intros S. unfold ConfigFromEnv. rewrite S. cbn. unfold os.LookupEnv.
  destruct (env !! "CONNECT_SERVER_ADDR"); reflexivity.
Qed.

(** C9, as the code has it: a mode selector that is none of lambda,
    http and the empty string after trimming and lower-casing is an
    error, and so is a missing listen address in HTTP mode; a missing
    selector is not an error by itself: it selects HTTP mode, which then
    asks for the listen address. *)
Theorem ConfigFromEnv_errors (env : os.Environ) :
  (strings_ToLower (strings_TrimSpace (os.Getenv env "CONNECT_SERVER_MODE"))
   <> "lambda" ->
   strings_ToLower (strings_TrimSpace (os.Getenv env "CONNECT_SERVER_MODE"))
   <> "http" ->
   strings_ToLower (strings_TrimSpace (os.Getenv env "CONNECT_SERVER_MODE"))
   <> "" ->
   exists e, ConfigFromEnv env = (Config.mk HttpMode "", Some e)) /\
  (strings_ToLower (strings_TrimSpace (os.Getenv env "CONNECT_SERVER_MODE"))
   = "http" \/
   strings_ToLower (strings_TrimSpace (os.Getenv env "CONNECT_SERVER_MODE"))
   = "" ->
   env !! "CONNECT_SERVER_ADDR" = None ->
   ConfigFromEnv env
   = (Config.mk HttpMode "",
      Some "missing CONNECT_SERVER_ADDR environment value")) /\
  (env !! "CONNECT_SERVER_MODE" = None ->
   forall addr,
     env !! "CONNECT_SERVER_ADDR" = Some addr ->
     ConfigFromEnv env
     = (Config.mk HttpMode (strings_TrimSpace addr), None)).
Proof.
  split; [ | split ].
  - intros L T E. unfold ConfigFromEnv.
    rewrite (switch_mode_None _ L T E). eauto.
  - intros M A. rewrite ConfigFromEnv_http, A; [ reflexivity | ].
    destruct M as [-> | ->]; reflexivity.
  - intros M addr A. rewrite ConfigFromEnv_http, A; [ reflexivity | ].
    unfold os.Getenv. rewrite M. cbn [default].
    rewrite TrimSpace_empty, ToLower_empty. reflexivity.
Qed.

End Startup.

(** * The properties at concrete invocations *)

Section Concrete.
Import ascii_lib.
#[local] Existing Instance lib.

Lemma request_body_witness :
  (exists req,
      served (events (handleLambdaReq (says "text/plain" "ok")
                        (envelope "POST" "/greet" ∅ ∅ "hi" false)))
      = [req] /\
      http.Body req = bytes_of_string "hi") /\
  (exists req,
      served (events (handleLambdaReq (says "text/plain" "ok")
                        (envelope "POST" "/greet" ∅ ∅ "aGk=" true)))
      = [req] /\
      http.Body req = bytes_of_string "hi") /\
  (ProxyResponse.Status
     (response (handleLambdaReq (says "text/plain" "ok")
                  (envelope "POST" "/greet" ∅ ∅ "aGk" true))) = 400 /\
   served (events (handleLambdaReq (says "text/plain" "ok")
                     (envelope "POST" "/greet" ∅ ∅ "aGk" true))) = []).
Proof.
  split; [ | split ].
  - destruct (request_body (says "text/plain" "ok")
                (envelope "POST" "/greet" ∅ ∅ "hi" false)) as [A _].
    destruct (A eq_refl) as [_ A'].
    apply (A' "/greet"); [ right; reflexivity | reflexivity ].
  - destruct (request_body (says "text/plain" "ok")
                (envelope "POST" "/greet" ∅ ∅ "aGk=" true)) as [_ [B _]].
    destruct (B (bytes_of_string "hi") eq_refl eq_refl) as [_ B'].
    apply (B' "/greet"); [ right; reflexivity | reflexivity ].
  - destruct (request_body (says "text/plain" "ok")
                (envelope "POST" "/greet" ∅ ∅ "aGk" true)) as [_ [_ C]].
    destruct (C eq_refl eq_refl) as [_ [S [_ N]]].
    split; [ exact S | exact N ].
Defined.

(** A handler that makes no call: the envelope has status 500 and the
    flag is false, not true. *)
Lemma silent_handler_flag_counterexample :
  mux silent
    (request "POST" "/greet" ∅ "") = [] /\
  served (events (handleLambdaReq silent
                    (envelope "POST" "/greet" ∅ ∅ "" false)))
  = [ request "POST" "/greet" ∅ "" ] /\
  ~ (ProxyResponse.Status
       (response (handleLambdaReq silent
                    (envelope "POST" "/greet" ∅ ∅ "" false))) = 500 /\
     ProxyResponse.Base64
       (response (handleLambdaReq silent
                    (envelope "POST" "/greet" ∅ ∅ "" false))) = true /\
     ProxyResponse.Body
       (response (handleLambdaReq silent
                    (envelope "POST" "/greet" ∅ ∅ "" false))) <> "" /\
     length (logged (events (handleLambdaReq silent
                               (envelope "POST" "/greet" ∅ ∅ "" false))))
     = 1%nat).
Proof.
  split; [ reflexivity | ]. split; [ reflexivity | ].
  intros [_ [B _]]. discriminate B.
Qed.

Lemma silent_handler_500_witness :
  ProxyResponse.Status
    (response (handleLambdaReq silent
                 (envelope "POST" "/greet" ∅ ∅ "" false))) = 500 /\
  ProxyResponse.Base64
    (response (handleLambdaReq silent
                 (envelope "POST" "/greet" ∅ ∅ "" false))) = false /\
  logged (events (handleLambdaReq silent
                    (envelope "POST" "/greet" ∅ ∅ "" false)))
  = ["HTTP handler returned without writing a header or body"].
Proof.
  destruct (silent_handler_500 silent
              (envelope "POST" "/greet" ∅ ∅ "" false)
              (request "POST" "/greet" ∅ ""))
    as [S [B [_ [_ [_ L]]]]].
  - apply list_elem_of_singleton. reflexivity.
  - reflexivity.
  - split; [ exact S | ]. split; [ exact B | exact L ].
Defined.

Lemma recoverable_errors_witness :
  plainText (response (handleLambdaReq silent
                         (envelope "POST" "/greet" ∅ ∅ "aGk" true)))
    400 "could not decode body" /\
  plainText (response (handleLambdaReq silent
                         (envelope "NO GOOD" "/greet" ∅ ∅ "hi" false)))
    400 "could not create request, check url and http method" /\
  plainText (response (handleLambdaReq silent
                         (envelope "POST" "/greet" ∅ ∅ "hi" false)))
    500 "internal server error".
Proof.
  split; [ | split ].
  - destruct (recoverable_errors silent
                (envelope "POST" "/greet" ∅ ∅ "aGk" true)) as [_ [A _]].
    apply A; reflexivity.
  - destruct (recoverable_errors silent
                (envelope "NO GOOD" "/greet" ∅ ∅ "hi" false))
      as [_ [_ [A _]]].
    apply (A (bytes_of_string "hi")); [ reflexivity | ].
    left. split; [ discriminate | reflexivity ].
  - destruct (recoverable_errors silent
                (envelope "POST" "/greet" ∅ ∅ "hi" false))
      as [_ [_ [_ A]]].
    apply (A (request "POST" "/greet" ∅ "hi")).
    + apply list_elem_of_singleton. reflexivity.
    + reflexivity.
Defined.

Lemma headers_merged_witness :
  http.Header_Values
    {[ "X" := ["1"; "2"; "3"] ]} "X" = ["1"; "2"; "3"] /\
  http.Header_
    (request "GET" "/greet" {[ "X" := ["1"; "2"; "3"] ]} "") !! "X"
  = Some ["1"; "2"; "3"].
Proof.
  destruct (headers_merged silent
              (envelope "GET" "/greet" {[ "X" := "1" ]}
                 {[ "X" := ["2"; "3"] ]} "" false)
              (request "GET" "/greet" {[ "X" := ["1"; "2"; "3"] ]} "") "X")
    as [_ [E X]].
  - apply list_elem_of_singleton. reflexivity.
  - split.
    + apply E. intros k' [[v L] | [v L]] _; unfold envelope in L;
        cbn [ProxyRequest.Headers ProxyRequest.MultiValueHeaders] in L;
        apply lookup_singleton_Some in L as [<- _]; reflexivity.
    + apply X; reflexivity.
Defined.

(** No mode selector but a listen address: HTTP mode and no error. *)
Lemma ConfigFromEnv_missing_mode_counterexample :
  ({[ "CONNECT_SERVER_ADDR" := ":8080" ]} : os.Environ)
    !! "CONNECT_SERVER_MODE" = None /\
  ConfigFromEnv {[ "CONNECT_SERVER_ADDR" := ":8080" ]}
  = (Config.mk HttpMode ":8080", None).
Proof. split; reflexivity. Qed.

Lemma ConfigFromEnv_errors_witness :
  (exists e,
      ConfigFromEnv {[ "CONNECT_SERVER_MODE" := "grpc" ]}
      = (Config.mk HttpMode "", Some e)) /\
  ConfigFromEnv {[ "CONNECT_SERVER_MODE" := " HTTP " ]}
  = (Config.mk HttpMode "",
     Some "missing CONNECT_SERVER_ADDR environment value") /\
  ConfigFromEnv {[ "CONNECT_SERVER_ADDR" := " :8080" ]}
  = (Config.mk HttpMode ":8080", None).
Proof.
  split; [ | split ].
  - apply (proj1 (ConfigFromEnv_errors
                    {[ "CONNECT_SERVER_MODE" := "grpc" ]})); discriminate.
  - apply (proj1 (proj2 (ConfigFromEnv_errors
                           {[ "CONNECT_SERVER_MODE" := " HTTP " ]})));
      [ left; reflexivity | reflexivity ].
  - assert (M : ({[ "CONNECT_SERVER_ADDR" := " :8080" ]} : os.Environ)
                 !! "CONNECT_SERVER_MODE" = None) by reflexivity.
    assert (A : ({[ "CONNECT_SERVER_ADDR" := " :8080" ]} : os.Environ)
                 !! "CONNECT_SERVER_ADDR" = Some " :8080") by reflexivity.
    exact (proj2 (proj2 (ConfigFromEnv_errors
                           {[ "CONNECT_SERVER_ADDR" := " :8080" ]}))
             M " :8080" A).
Defined.

(** A handler that declares text/plain and writes [hello]: status 200,
    flag true, body the base64 text of [hello]. *)
Example says_text_plain_hello :
  response (handleLambdaReq (says "text/plain" "hello")
              (envelope "POST" "/greet" ∅ ∅ "hi" false))
  = {| ProxyResponse.Base64 := true;
       ProxyResponse.Status := 200;
       ProxyResponse.Header := Some {[ "Content-Type" := ["text/plain"] ]};
       ProxyResponse.Body := "aGVsbG8=" |}.
Proof. reflexivity. Qed.

Example EncodeToString_hello :
  base64.EncodeToString (bytes_of_string "hello") = "aGVsbG8=".
Proof. reflexivity. Qed.

Example DecodeString_hello :
  base64.DecodeString "aGVsbG8=" = Some (bytes_of_string "hello").
Proof. reflexivity. Qed.

Example DecodeString_unpadded : base64.DecodeString "aGVsbG8" = None.
Proof. reflexivity. Qed.

Example DecodeString_bad_char : base64.DecodeString "a*Vs" = None.
Proof. reflexivity. Qed.

Example CanonicalMIMEHeaderKey_examples :
  textproto.CanonicalMIMEHeaderKey "content-type" = "Content-Type" /\
  textproto.CanonicalMIMEHeaderKey "x-FOO-bar" = "X-Foo-Bar" /\
  textproto.CanonicalMIMEHeaderKey "x foo" = "x foo".
Proof. repeat split. Qed.

End Concrete.

(** * Further properties of the capture buffer *)

Section BufferMore.
Import ResponseBuffer.

Lemma perform_buf (c : call) (o : t) :
  buf (perform o c)
  = buf o ++ match c with CallWrite bytes => bytes | _ => [] end.
Proof.
  destruct c as [f | s | bs]; cbn [perform].
  - unfold Header. destruct (header o); cbn; rewrite app_nil_r; reflexivity.
  - unfold WriteHeader. destruct (wroteHeader o); cbn; rewrite app_nil_r;
      reflexivity.
  - rewrite Write_spec. reflexivity.
Qed.

(** The buffer accumulates exactly the bytes of the writes, in the order
    of the calls; status-set calls and header accesses add nothing. *)
Lemma ServeHTTP_buf (cs : list call) (o : t) :
  buf (ServeHTTP cs o) = buf o ++ written cs.
Proof.
  revert o. induction cs as [ | c cs IH ]; intros o.
  - cbn. rewrite app_nil_r. reflexivity.
  - rewrite ServeHTTP_cons, IH, perform_buf, <- app_assoc. f_equal.
    destruct c; reflexivity.
Qed.

Lemma perform_flag (c : call) (o : t) :
  wroteHeader (perform o c) = wroteHeader o || negb (isCallHeader c).
Proof.
  destruct c as [f | s | bs]; cbn [perform isCallHeader negb].
  - unfold Header. destruct (header o); cbn; rewrite orb_false_r; reflexivity.
  - unfold WriteHeader. destruct (wroteHeader o) eqn:W; cbn; auto.
  - rewrite Write_spec. cbn. rewrite orb_true_r. reflexivity.
Qed.

Lemma ServeHTTP_flag (cs : list call) (o : t) :
  wroteHeader (ServeHTTP cs o)
  = wroteHeader o || existsb (fun c => negb (isCallHeader c)) cs.
Proof.
  revert o. induction cs as [ | c cs IH ]; intros o.
  - cbn. rewrite orb_false_r. reflexivity.
  - rewrite ServeHTTP_cons, IH, perform_flag. cbn [existsb].
    rewrite orb_assoc. reflexivity.
Qed.

Lemma perform_header_call_status (f : http.Header -> http.Header) (o : t) :
  statusCode (perform o (CallHeader f)) = statusCode o.
Proof. cbn. unfold Header. destruct (header o); reflexivity. Qed.

Lemma ServeHTTP_headers_status (cs : list call) (o : t) :
  forallb isCallHeader cs = true ->
  statusCode (ServeHTTP cs o) = statusCode o.
Proof.
  revert o. induction cs as [ | c cs IH ]; intros o F; [ reflexivity | ].
  cbn [forallb] in F. apply andb_prop in F as [Fc F].
  rewrite ServeHTTP_cons, IH by exact F.
  destruct c; try discriminate Fc. apply perform_header_call_status.
Qed.

(** A buffer committed with status zero: the first write makes it 200. *)
Lemma ServeHTTP_committed_zero (cs : list call) (o : t) :
  wroteHeader o = true -> statusCode o = 0 ->
  statusCode (ServeHTTP cs o) = if existsb isCallWrite cs then 200 else 0.
Proof.
  revert o. induction cs as [ | c cs IH ]; intros o W S; [ exact S | ].
  rewrite ServeHTTP_cons.
  destruct c as [f | s | bs]; cbn [existsb isCallWrite orb].
  - apply IH.
    + rewrite perform_flag, W. reflexivity.
    + rewrite perform_header_call_status. exact S.
  - cbn [perform]. rewrite WriteHeader_committed by exact W.
    apply IH; assumption.
  - cbn [perform]. rewrite Write_spec. cbn [snd].
    rewrite W, S. cbn.
    apply (ServeHTTP_committed cs); [ reflexivity | discriminate ].
Qed.

(** X1: when the first status-committing call is [WriteHeader c], the
    status is [c] to the end, except that a code of zero is replaced by
    200 as soon as something is written. *)
Theorem WriteHeader_first_status (pre post : list call) (c : Z) :
  forallb isCallHeader pre = true ->
  statusCode (ServeHTTP (pre ++ CallWriteHeader c :: post) zero)
  = (if Z.eqb c 0 && existsb isCallWrite post then 200 else c) /\
  ProxyResponse.Status
    (ToLambdaProxyResponse
       (ServeHTTP (pre ++ CallWriteHeader c :: post) zero))
  = (if Z.eqb c 0 && existsb isCallWrite post then 200 else c).
Proof.
  intros F.
  assert (E : statusCode (ServeHTTP (pre ++ CallWriteHeader c :: post) zero)
              = if Z.eqb c 0 && existsb isCallWrite post then 200 else c).
  { rewrite ServeHTTP_app, ServeHTTP_cons. cbn [perform].
    rewrite WriteHeader_fresh
      by (rewrite ServeHTTP_only_headers; [ reflexivity | exact F ]).
    destruct (Z.eqb_spec c 0) as [-> | N]; cbn [andb].
    - apply ServeHTTP_committed_zero; reflexivity.
    - apply (ServeHTTP_committed post); [ reflexivity | exact N ]. }
  split; [ exact E | exact E ].
Qed.


(** X2: after a write the status is never zero, whatever the buffer held
    before and whatever is called afterwards. *)
Theorem Write_status_nonzero (pre post : list call) (bytes : list byte)
    (o : t) :
  statusCode (ServeHTTP (pre ++ CallWrite bytes :: post) o) <> 0 /\
  wroteHeader (ServeHTTP (pre ++ CallWrite bytes :: post) o) = true.
Proof.
  rewrite ServeHTTP_app, ServeHTTP_cons. cbn [perform].
  rewrite Write_spec. cbn [snd].
  set (o' := mk _ _ _ true).
  assert (N : statusCode o' <> 0).
  { unfold o'. cbn. destruct (wroteHeader (ServeHTTP pre o));
      [ | discriminate ].
    destruct (Z.eqb_spec (statusCode (ServeHTTP pre o)) 0);
      [ discriminate | assumption ]. }
  destruct (ServeHTTP_committed post o' eq_refl N) as [W S].
  split; [ congruence | exact W ].
Qed.

(** The status of a committed buffer is 200 or a code that was passed to
    [WriteHeader]. *)
Lemma ServeHTTP_status_from (cs : list call) (o : t) :
  wroteHeader (ServeHTTP cs o) = true ->
  statusCode (ServeHTTP cs o) = 200 \/
  CallWriteHeader (statusCode (ServeHTTP cs o)) ∈ cs \/
  (wroteHeader o = true /\ statusCode (ServeHTTP cs o) = statusCode o).
Proof.
  revert o. induction cs as [ | c cs IH ]; intros o W.
  - right. right. split; [ exact W | reflexivity ].
  - rewrite ServeHTTP_cons in *.
    destruct (IH _ W) as [E | [I | [W' E]]].
    + left. exact E.
    + right. left. right. exact I.
    + rewrite E. destruct c as [f | s | bs].
      * right. right. rewrite perform_header_call_status.
        rewrite perform_flag in W'. cbn in W'.
        rewrite orb_false_r in W'. split; [ exact W' | reflexivity ].
      * cbn [perform] in *. unfold WriteHeader in *.
        destruct (wroteHeader o) eqn:Wo.
        -- right. right. split; reflexivity.
        -- right. left. cbn. left.
      * cbn [perform]. rewrite Write_spec. cbn [snd statusCode].
        destruct (wroteHeader o) eqn:Wo; [ | left; reflexivity ].
        destruct (Z.eqb_spec (statusCode o) 0); [ left; reflexivity | ].
        right. right. split; reflexivity.
Qed.

(** Calls that are not header accesses leave the header alone, and
    header accesses leave everything else alone. *)
Lemma perform_header_other (c : call) (o : t) :
  isCallHeader c = false -> header (perform o c) = header o.
Proof.
  destruct c as [f | s | bs]; intros E; try discriminate E; cbn [perform].
  - unfold WriteHeader. destruct (wroteHeader o); reflexivity.
  - rewrite Write_spec. reflexivity.
Qed.

Lemma perform_header_congr (f : http.Header -> http.Header) (o o' : t) :
  header o = header o' ->
  header (perform o (CallHeader f)) = header (perform o' (CallHeader f)).
Proof.
  intros E. cbn [perform]. unfold Header. rewrite E.
  destruct (header o'); reflexivity.
Qed.

Lemma ServeHTTP_header_only (cs : list call) (o o' : t) :
  header o = header o' ->
  header (ServeHTTP cs o) = header (ServeHTTP (List.filter isCallHeader cs) o').
Proof.
  revert o o'. induction cs as [ | c cs IH ]; intros o o' E; [ exact E | ].
  rewrite ServeHTTP_cons. cbn [List.filter].
  destruct (isCallHeader c) eqn:C.
  - rewrite ServeHTTP_cons. apply IH.
    destruct c; try discriminate C. apply perform_header_congr, E.
  - apply IH. rewrite perform_header_other by exact C. exact E.
Qed.

Lemma perform_rest_header (f : http.Header -> http.Header) (o : t) :
  same_rest (perform o (CallHeader f)) o.
Proof. cbn. unfold Header. destruct (header o); repeat split. Qed.

Lemma perform_rest_congr (c : call) (o o' : t) :
  isCallHeader c = false -> same_rest o o' ->
  same_rest (perform o c) (perform o' c).
Proof.
  intros C (S & B & W). destruct c as [f | s | bs]; try discriminate C;
    cbn [perform].
  - unfold WriteHeader. rewrite W. destruct (wroteHeader o') eqn:W';
      repeat split; cbn; congruence.
  - rewrite !Write_spec. cbn [snd]. rewrite S, B, W. repeat split.
Qed.

Lemma ServeHTTP_rest_only (cs : list call) (o o' : t) :
  same_rest o o' ->
  same_rest (ServeHTTP cs o)
    (ServeHTTP (List.filter (fun c => negb (isCallHeader c)) cs) o').
Proof.
  revert o o'. induction cs as [ | c cs IH ]; intros o o' E; [ exact E | ].
  rewrite ServeHTTP_cons. cbn [List.filter].
  destruct (isCallHeader c) eqn:C; cbn [negb].
  - apply IH. destruct c; try discriminate C.
    destruct (perform_rest_header f o) as (S & B & W).
    destruct E as (S' & B' & W'). repeat split; congruence.
  - rewrite ServeHTTP_cons. apply IH, perform_rest_congr; assumption.
Qed.

Lemma filter_split_l {A : Type} (f : A -> bool) (l : list A) :
  List.filter f (List.filter f l ++ List.filter (fun x => negb (f x)) l)
  = List.filter f l.
Proof.
  rewrite List.filter_app.
  rewrite (List.forallb_filter_id f (List.filter f l))
    by apply List.forallb_filter.
  replace (List.filter f (List.filter (fun x => negb (f x)) l)) with (@nil A);
    [ apply app_nil_r | ].
  induction l as [ | x l IH ]; [ reflexivity | ].
  cbn [List.filter]. destruct (f x) eqn:E; cbn [negb List.filter];
    rewrite ?E; exact IH.
Qed.

Lemma filter_split_r {A : Type} (f : A -> bool) (l : list A) :
  List.filter (fun x => negb (f x))
    (List.filter f l ++ List.filter (fun x => negb (f x)) l)
  = List.filter (fun x => negb (f x)) l.
Proof.
  rewrite List.filter_app.
  rewrite (List.forallb_filter_id (fun x => negb (f x))
             (List.filter (fun x => negb (f x)) l))
    by apply (List.forallb_filter (fun x => negb (f x))).
  replace (List.filter (fun x => negb (f x)) (List.filter f l)) with (@nil A);
    [ reflexivity | ].
  induction l as [ | x l IH ]; [ reflexivity | ].
  cbn [List.filter]. destruct (f x) eqn:E; cbn [negb List.filter];
    rewrite ?E; cbn [negb]; exact IH.
Qed.

Lemma buffer_eq (o o' : t) :
  header o = header o' -> same_rest o o' -> o = o'.
Proof.
  destruct o, o'. unfold same_rest. cbn. intros -> (-> & -> & ->).
  reflexivity.
Qed.

(** X3: header accesses and the other calls do not interfere: moving
    every header access in front of the writes and status-set calls
    (keeping the order within each group) gives the same buffer.  What a
    handler puts in the header after it has written is kept like what
    it put there before. *)
Theorem ServeHTTP_headers_first (cs : list call) (o : t) :
  ServeHTTP cs o
  = ServeHTTP (List.filter isCallHeader cs
               ++ List.filter (fun c => negb (isCallHeader c)) cs) o.
Proof.
  apply buffer_eq.
  - rewrite (ServeHTTP_header_only cs o o eq_refl).
    rewrite (ServeHTTP_header_only (_ ++ _) o o eq_refl).
    rewrite filter_split_l. reflexivity.
  - destruct (ServeHTTP_rest_only cs o o) as (S & B & W);
      [ repeat split | ].
    destruct (ServeHTTP_rest_only
                (List.filter isCallHeader cs
                 ++ List.filter (fun c => negb (isCallHeader c)) cs) o o)
      as (S' & B' & W'); [ repeat split | ].
    rewrite filter_split_r in S', B', W'.
    repeat split; congruence.
Qed.




End BufferMore.

(** * Further properties of the entry point *)

Section EntryMore.
Context `{GoLib}.

(** What an invocation that reached the handler returns. *)
Lemma handleLambdaReq_served (h : handler) (preq : ProxyRequest.t)
    (req : http.Request) :
  req ∈ served (events (handleLambdaReq h preq)) ->
  handleLambdaReq h preq
  = if ResponseBuffer.wroteHeader (ServeHTTP (mux h req) ResponseBuffer.zero)
    then {| response :=
              ResponseBuffer.ToLambdaProxyResponse
                (ServeHTTP (mux h req) ResponseBuffer.zero);
            err := None;
            events := [Serve req] |}
    else {| response := errorResponse 500 "internal server error";
            err := None;
            events :=
              [Serve req;
               Log "HTTP handler returned without writing a header or body"]
         |}.
Proof.
  intros I.
  destruct (handleLambdaReq_run h preq)
    as [B | bs e B N | bs req0 req' B N E W | bs req0 req' B N E W];
    cbn in I; try (by apply elem_of_nil in I);
    apply list_elem_of_singleton in I; subst req'; rewrite W; reflexivity.
Qed.

(** X5: the handler contract.  An invocation that reached the handler
    returns the synthesized 500 envelope and logs one message exactly
    when the handler called neither [Write] nor [WriteHeader] (it may
    have touched the header map); otherwise it returns the envelope
    rendered from the buffer and logs nothing. *)
Theorem handler_contract (h : handler) (preq : ProxyRequest.t)
    (req : http.Request) :
  req ∈ served (events (handleLambdaReq h preq)) ->
  if forallb isCallHeader (mux h req)
  then response (handleLambdaReq h preq)
       = errorResponse 500 "internal server error" /\
       logged (events (handleLambdaReq h preq))
       = ["HTTP handler returned without writing a header or body"]
  else response (handleLambdaReq h preq)
       = ResponseBuffer.ToLambdaProxyResponse
           (ServeHTTP (mux h req) ResponseBuffer.zero) /\
       logged (events (handleLambdaReq h preq)) = [].
Proof.
  intros I. rewrite (handleLambdaReq_served h preq req I).
  rewrite ServeHTTP_flag.
  cbn [ResponseBuffer.wroteHeader ResponseBuffer.zero orb].
  assert (E : existsb (fun c => negb (isCallHeader c)) (mux h req)
              = negb (forallb isCallHeader (mux h req))).
  { induction (mux h req) as [ | c cs IH ]; [ reflexivity | ].
    cbn [existsb forallb]. rewrite IH, negb_andb. reflexivity. }
  rewrite E. destruct (forallb isCallHeader (mux h req)); cbn; auto.
Qed.

(** X6: what the caller receives from a handler that committed: reading
    the body of the envelope as its flag says gives the bytes of the
    handler's writes, concatenated in order. *)
Theorem received_written (h : handler) (preq : ProxyRequest.t)
    (req : http.Request) :
  req ∈ served (events (handleLambdaReq h preq)) ->
  existsb (fun c => negb (isCallHeader c)) (mux h req) = true ->
  received (response (handleLambdaReq h preq)) = Some (written (mux h req)).
Proof.
  intros I C. rewrite (handleLambdaReq_served h preq req I).
  rewrite ServeHTTP_flag, C.
  cbn [ResponseBuffer.wroteHeader ResponseBuffer.zero orb response].
  rewrite (agreement_received _ _ (agreement_rendered _)).
  rewrite ServeHTTP_buf. reflexivity.
Qed.

(** X7: the status of an envelope is 400, 500, 200 or a code that the
    handler passed to [WriteHeader]. *)
Theorem status_provenance (h : handler) (preq : ProxyRequest.t) :
  ProxyResponse.Status (response (handleLambdaReq h preq)) = 400 \/
  ProxyResponse.Status (response (handleLambdaReq h preq)) = 500 \/
  ProxyResponse.Status (response (handleLambdaReq h preq)) = 200 \/
  exists req,
    served (events (handleLambdaReq h preq)) = [req] /\
    CallWriteHeader (ProxyResponse.Status (response (handleLambdaReq h preq)))
    ∈ mux h req.
Proof.
  destruct (handleLambdaReq_run h preq)
    as [B | bs e B N | bs req0 req B N E W | bs req0 req B N E W];
    cbn [response events served omap]; auto.
  destruct (ServeHTTP_status_from _ _ W) as [S | [I | [W' _]]].
  - right. right. left. exact S.
  - right. right. right. exists req. split; [ reflexivity | exact I ].
  - discriminate W'.
Qed.


(** X9: the body of a request survives the envelope.  An envelope that
    carries the base64 text of [bs] with the flag set is never turned
    down as undecodable, and every request built from it has the body
    [bs]; an envelope with the flag unset hands over its body text
    unchanged. *)
Theorem request_body_round_trip (h : handler) (preq : ProxyRequest.t)
    (req : http.Request) :
  req ∈ served (events (handleLambdaReq h preq)) ->
  (forall bs,
      ProxyRequest.Base64 preq = true ->
      ProxyRequest.Body preq = base64.EncodeToString bs ->
      http.Body req = bs) /\
  (ProxyRequest.Base64 preq = false ->
   string_of_bytes (http.Body req) = ProxyRequest.Body preq).
Proof.
  intros I.
  assert (B : requestBody preq = Some (http.Body req)).
  { destruct (handleLambdaReq_run h preq)
      as [B | bs e B N | bs req0 req' B N -> W | bs req0 req' B N -> W];
      cbn in I; try (by apply elem_of_nil in I);
      apply list_elem_of_singleton in I; subst req;
      rewrite set_Header_Body, (NewRequestWithContext_Body _ _ _ _ N);
      exact B. }
  unfold requestBody in B. split.
  - intros bs F E. rewrite F, E, DecodeString_EncodeToString in B.
    congruence.
  - intros F. rewrite F in B. injection B as <-.
    apply string_of_list_byte_of_string.
Qed.

End EntryMore.

(** * Further properties of the header copy *)


Lemma Header_Add_from_keys (ok : string -> Prop) (key value : string)
    (h : http.Header) :
  ok key -> from_keys ok h -> from_keys ok (http.Header_Add key value h).
Proof.
  intros O I K vs. unfold http.Header_Add.
  destruct (decide (canon key = K)) as [<- | N].
  - rewrite lookup_insert_eq. intros [= <-]. split; [ | eauto ].
    destruct (default [] (h !! canon key)); discriminate.
  - rewrite lookup_insert_ne by exact N. apply I.
Qed.

Section HeadersMore.
Context `{GoLib}.

Lemma copyHeaders_from_keys (preq : ProxyRequest.t) (h : http.Header) :
  from_keys (fun k => is_Some (ProxyRequest.Headers preq !! k) \/
                      is_Some (ProxyRequest.MultiValueHeaders preq !! k)) h ->
  from_keys (fun k => is_Some (ProxyRequest.Headers preq !! k) \/
                      is_Some (ProxyRequest.MultiValueHeaders preq !! k))
    (copyHeaders preq h).
Proof.
  set (ok := fun k => _ \/ _). intros I. unfold copyHeaders.
  assert (S : forall (l : list (string * string)) h0,
             (forall kv, kv ∈ l -> ok (fst kv)) -> from_keys ok h0 ->
             from_keys ok
               (foldl (fun h kv => http.Header_Add (fst kv) (snd kv) h) h0 l)).
  { induction l as [ | kv l IH ]; intros h0 O I0; [ exact I0 | ].
    cbn [foldl]. apply IH.
    - intros kv' E. apply O. right. exact E.
    - apply Header_Add_from_keys; [ apply O; left | exact I0 ]. }
  assert (V : forall key (vs : list string) h0,
             ok key -> from_keys ok h0 ->
             from_keys ok
               (foldl (fun h v => http.Header_Add key v h) h0 vs)).
  { intros key vs. induction vs as [ | v vs IH ]; intros h0 O I0;
      [ exact I0 | ].
    cbn [foldl]. apply IH; [ exact O | ].
    apply Header_Add_from_keys; assumption. }
  assert (M : forall (l : list (string * list string)) h0,
             (forall ks, ks ∈ l -> ok (fst ks)) -> from_keys ok h0 ->
             from_keys ok
               (foldl (fun h ks =>
                         foldl (fun h v => http.Header_Add (fst ks) v h)
                               h (snd ks)) h0 l)).
  { induction l as [ | ks l IH ]; intros h0 O I0; [ exact I0 | ].
    cbn [foldl]. apply IH.
    - intros ks' E. apply O. right. exact E.
    - apply V; [ apply O; left | exact I0 ]. }
  apply M.
  - intros [k vs] E. apply range_elem_of in E. right. cbn. eauto.
  - apply S; [ | exact I ].
    intros [k v] E. apply range_elem_of in E. left. cbn. eauto.
Qed.


(** X11: the header map of the request holds no key without a value (a
    multi-value entry with an empty list leaves no trace), and each of
    its keys is the canonical form of a key of the envelope. *)
Theorem headers_keys (h : handler) (preq : ProxyRequest.t)
    (req : http.Request) (K : string) (vs : list string) :
  req ∈ served (events (handleLambdaReq h preq)) ->
  http.Header_ req !! K = Some vs ->
  vs <> [] /\
  exists k, canon k = K /\
            (is_Some (ProxyRequest.Headers preq !! k) \/
             is_Some (ProxyRequest.MultiValueHeaders preq !! k)).
Proof.
  intros I L. rewrite (served_headers h preq req I) in L.
  refine (copyHeaders_from_keys preq ∅ _ K vs L).
  intros K' vs' E. rewrite lookup_empty in E. discriminate E.
Qed.

End HeadersMore.

(** * Further properties of the startup *)

Section StartupMore.
Context `{GoLib}.

Lemma switch_mode_cases (mode : string) :
  (mode = "lambda" /\ switch_mode mode = Some LambdaMode) \/
  ((mode = "http" \/ mode = "") /\ switch_mode mode = Some HttpMode) \/
  (mode <> "lambda" /\ mode <> "http" /\ mode <> "" /\
   switch_mode mode = None).
Proof.
  unfold switch_mode.
  destruct (String.eqb_spec mode "lambda") as [-> | L]; [ auto | ].
  destruct (String.eqb_spec mode "") as [-> | E]; [ auto | ].
  destruct (String.eqb_spec mode "http") as [-> | T]; [ auto | ].
  right. right. auto.
Qed.

Lemma ConfigFromEnv_lambda (env : os.Environ) :
  switch_mode (selector env) = Some LambdaMode ->
  ConfigFromEnv env = (Config.mk LambdaMode "", None).
Proof.
  intros S. unfold ConfigFromEnv. fold (selector env). rewrite S.
  reflexivity.
Qed.

Lemma ConfigFromEnv_unknown (env : os.Environ) :
  switch_mode (selector env) = None ->
  exists e, ConfigFromEnv env = (Config.mk HttpMode "", Some e).
Proof.
  intros S. unfold ConfigFromEnv. fold (selector env). rewrite S. eauto.
Qed.

(** X12: [ConfigFromEnv] succeeds exactly when the selector is lambda,
    or is http or empty and the listen address is set; when it fails the
    configuration it returns is the zero value. *)
Theorem ConfigFromEnv_ok_iff (env : os.Environ) :
  (snd (ConfigFromEnv env) = None <->
   selector env = "lambda" \/
   ((selector env = "http" \/ selector env = "") /\
    is_Some (env !! "CONNECT_SERVER_ADDR"))) /\
  (snd (ConfigFromEnv env) <> None ->
   fst (ConfigFromEnv env) = Config.mk HttpMode "").
Proof.
  destruct (switch_mode_cases (selector env))
    as [[M S] | [[M S] | (L & T & E & S)]].
  - rewrite (ConfigFromEnv_lambda env S). cbn.
    split; [ | intros N; exfalso; apply N; reflexivity ].
    split; auto.
  - rewrite (ConfigFromEnv_http env S).
    destruct (env !! "CONNECT_SERVER_ADDR") as [addr | ]; cbn.
    + split; [ | intros N; exfalso; apply N; reflexivity ].
      split; [ eauto | reflexivity ].
    + split; [ | reflexivity ]. split; [ discriminate | ].
      intros [X | [_ [x X]]]; [ | discriminate X ].
      rewrite X in S. discriminate S.
  - destruct (ConfigFromEnv_unknown env S) as [e ->]. cbn.
    split; [ | reflexivity ]. split; [ discriminate | ].
    intros [X | [[X | X] _]]; contradiction.
Qed.

(** X13: what a successful [ConfigFromEnv] returns.  In Lambda mode the
    listen address is not looked at and the address of the result is
    empty; in HTTP mode the address is the trimmed value of the
    variable, and a variable that is set to the empty string is
    accepted. *)
Theorem ConfigFromEnv_values (env : os.Environ) :
  (selector env = "lambda" ->
   ConfigFromEnv env = (Config.mk LambdaMode "", None)) /\
  (selector env = "http" \/ selector env = "" ->
   forall addr,
     env !! "CONNECT_SERVER_ADDR" = Some addr ->
     ConfigFromEnv env = (Config.mk HttpMode (strings_TrimSpace addr), None)) /\
  (selector env = "http" \/ selector env = "" ->
   env !! "CONNECT_SERVER_ADDR" = Some "" ->
   ConfigFromEnv env = (Config.mk HttpMode "", None)).
Proof.
  assert (P : selector env = "http" \/ selector env = "" ->
              forall addr,
                env !! "CONNECT_SERVER_ADDR" = Some addr ->
                ConfigFromEnv env
                = (Config.mk HttpMode (strings_TrimSpace addr), None)).
  { intros M addr A. rewrite ConfigFromEnv_http, A; [ reflexivity | ].
    fold (selector env). destruct M as [-> | ->]; reflexivity. }
  split; [ | split ].
  - intros M. apply ConfigFromEnv_lambda. rewrite M. reflexivity.
  - exact P.
  - intros M A. rewrite (P M "" A), TrimSpace_empty. reflexivity.
Qed.

(** X14: with a configuration that [ConfigFromEnv] turns down, [Start]
    starts nothing and returns that error behind the prefix
    "could not start handler : "; with any other configuration it starts
    exactly one server. *)
Theorem Start_config_error (listen : string -> option error)
    (env : os.Environ) (mux : http.Request -> list call) :
  match snd (ConfigFromEnv env) with
  | Some e =>
      Start listen env mux = ([], Some ("could not start handler : " +:+ e))
  | None => length (fst (Start listen env mux)) = 1%nat
  end.
Proof.
  unfold Start. destruct (ConfigFromEnv env) as [config [e | ]]; cbn [snd].
  - reflexivity.
  - destruct (Config.Mode config); reflexivity.
Qed.

(** X15: which server [Start] starts.  With the selector lambda it hands
    the handler built from [mux] to the Lambda runtime and does not
    listen, whatever the listen address; with the selector http or
    empty and the address set it listens once, on the trimmed address,
    and returns the error of the server behind the prefix
    "failed to start http server : ". *)
Theorem Start_mode (listen : string -> option error)
    (env : os.Environ) (mux : http.Request -> list call) :
  (selector env = "lambda" ->
   Start listen env mux = ([LambdaStart (@mkHandler _ mux)], None)) /\
  (selector env = "http" \/ selector env = "" ->
   forall addr,
     env !! "CONNECT_SERVER_ADDR" = Some addr ->
     Start listen env mux
     = ([ListenAndServe (strings_TrimSpace addr) mux],
        match listen (strings_TrimSpace addr) with
        | Some e => Some ("failed to start http server : " +:+ e)
        | None => None
        end)).
Proof.
  split.
  - intros M. unfold Start. rewrite ConfigFromEnv_lambda; [ reflexivity | ].
    rewrite M. reflexivity.
  - intros M addr A. unfold Start.
    rewrite ConfigFromEnv_http, A; [ reflexivity | ].
    fold (selector env). destruct M as [-> | ->]; reflexivity.
Qed.

End StartupMore.

(** * The further properties at concrete invocations *)

Section ConcreteMore.
Import ascii_lib.
#[local] Existing Instance lib.

Lemma WriteHeader_first_status_witness :
  ResponseBuffer.statusCode
    (ServeHTTP ([CallHeader (http.Header_Add "Content-Type" "text/plain")]
                ++ CallWriteHeader 0 :: [CallWrite (bytes_of_string "hello")])
       ResponseBuffer.zero) = 200 /\
  ResponseBuffer.statusCode
    (ServeHTTP ([] ++ CallWriteHeader 0 :: []) ResponseBuffer.zero) = 0 /\
  ResponseBuffer.statusCode
    (ServeHTTP ([] ++ CallWriteHeader 404
                   :: [CallWrite (bytes_of_string "hello")])
       ResponseBuffer.zero) = 404.
Proof.
  split; [ | split ].
  - exact (proj1 (WriteHeader_first_status
                    [CallHeader (http.Header_Add "Content-Type" "text/plain")]
                    [CallWrite (bytes_of_string "hello")] 0 eq_refl)).
  - exact (proj1 (WriteHeader_first_status [] [] 0 eq_refl)).
  - exact (proj1 (WriteHeader_first_status []
                    [CallWrite (bytes_of_string "hello")] 404 eq_refl)).
Defined.

Lemma handler_contract_witness :
  (response (handleLambdaReq silent (envelope "POST" "/greet" ∅ ∅ "" false))
   = errorResponse 500 "internal server error" /\
   logged (events (handleLambdaReq silent
                     (envelope "POST" "/greet" ∅ ∅ "" false)))
   = ["HTTP handler returned without writing a header or body"]) /\
  (response (handleLambdaReq created
               (envelope "POST" "/greet" ∅ ∅ "" false))
   = ResponseBuffer.ToLambdaProxyResponse
       (ServeHTTP (mux created (request "POST" "/greet" ∅ ""))
          ResponseBuffer.zero) /\
   logged (events (handleLambdaReq created
                     (envelope "POST" "/greet" ∅ ∅ "" false))) = []).
Proof.
  split.
  - apply (handler_contract silent (envelope "POST" "/greet" ∅ ∅ "" false)
             (request "POST" "/greet" ∅ "")).
    apply list_elem_of_singleton. reflexivity.
  - apply (handler_contract created (envelope "POST" "/greet" ∅ ∅ "" false)
             (request "POST" "/greet" ∅ "")).
    apply list_elem_of_singleton. reflexivity.
Defined.

Lemma received_written_witness :
  received (response (handleLambdaReq created
                        (envelope "POST" "/greet" ∅ ∅ "" false)))
  = Some (bytes_of_string "hello").
Proof.
  apply (received_written created (envelope "POST" "/greet" ∅ ∅ "" false)
           (request "POST" "/greet" ∅ "")).
  - apply list_elem_of_singleton. reflexivity.
  - reflexivity.
Defined.


Lemma request_body_round_trip_witness :
  http.Body (request "POST" "/greet" ∅ "hi") = bytes_of_string "hi" /\
  string_of_bytes (http.Body (request "POST" "/greet" ∅ "hi")) = "hi".
Proof.
  split.
  - apply (proj1 (request_body_round_trip created
                    (envelope "POST" "/greet" ∅ ∅ "aGk=" true)
                    (request "POST" "/greet" ∅ "hi")
                    ltac:(apply list_elem_of_singleton; reflexivity)));
      reflexivity.
  - apply (proj2 (request_body_round_trip created
                    (envelope "POST" "/greet" ∅ ∅ "hi" false)
                    (request "POST" "/greet" ∅ "hi")
                    ltac:(apply list_elem_of_singleton; reflexivity))).
    reflexivity.
Defined.


Lemma headers_keys_witness :
  ["a"; "b"; "c"] <> [] /\
  exists k, canon k = "X" /\
            (is_Some (({[ "x" := "a"; "X" := "b" ]} : gmap string string)
                        !! k) \/
             is_Some (({[ "X" := ["c"]; "y" := [] ]}
                         : gmap string (list string)) !! k)).
Proof.
  exact (headers_keys silent
           (envelope "GET" "/greet" {[ "x" := "a"; "X" := "b" ]}
              {[ "X" := ["c"]; "y" := [] ]} "" false)
           (request "GET" "/greet" {[ "X" := ["a"; "b"; "c"] ]} "") "X"
           ["a"; "b"; "c"]
           ltac:(apply list_elem_of_singleton; reflexivity)
           ltac:(reflexivity)).
Defined.

Lemma ConfigFromEnv_values_witness :
  ConfigFromEnv {[ "CONNECT_SERVER_MODE" := "Lambda";
                   "CONNECT_SERVER_ADDR" := ":8080" ]}
  = (Config.mk LambdaMode "", None) /\
  ConfigFromEnv {[ "CONNECT_SERVER_MODE" := "http";
                   "CONNECT_SERVER_ADDR" := "" ]}
  = (Config.mk HttpMode "", None).
Proof.
  split.
  - apply (proj1 (ConfigFromEnv_values
                    {[ "CONNECT_SERVER_MODE" := "Lambda";
                       "CONNECT_SERVER_ADDR" := ":8080" ]})).
    reflexivity.
  - apply (proj2 (proj2 (ConfigFromEnv_values
                           {[ "CONNECT_SERVER_MODE" := "http";
                              "CONNECT_SERVER_ADDR" := "" ]})));
      [ left; reflexivity | reflexivity ].
Defined.

Lemma Start_mode_witness :
  Start (fun _ => Some "listen tcp :8080: bind: address already in use")
    {[ "CONNECT_SERVER_MODE" := "lambda"; "CONNECT_SERVER_ADDR" := ":8080" ]}
    (mux created)
  = ([LambdaStart (@mkHandler lib (mux created))], None) /\
  Start (fun _ => Some "listen tcp :8080: bind: address already in use")
    {[ "CONNECT_SERVER_ADDR" := " :8080" ]} (mux created)
  = ([ListenAndServe ":8080" (mux created)],
     Some ("failed to start http server : "
           +:+ "listen tcp :8080: bind: address already in use")).
Proof.
  split.
  - apply (proj1 (Start_mode _ _ _)). reflexivity.
  - assert (A : ({[ "CONNECT_SERVER_ADDR" := " :8080" ]} : os.Environ)
                 !! "CONNECT_SERVER_ADDR" = Some " :8080") by reflexivity.
    assert (M : selector {[ "CONNECT_SERVER_ADDR" := " :8080" ]} = "http" \/
                selector {[ "CONNECT_SERVER_ADDR" := " :8080" ]} = "")
      by (right; reflexivity).
    exact (proj2 (Start_mode
                    (fun _ =>
                       Some "listen tcp :8080: bind: address already in use")
                    {[ "CONNECT_SERVER_ADDR" := " :8080" ]} (mux created))
             M " :8080" A).
Defined.

End ConcreteMore.
